(** * A text classifier served over HTTP: artifact loading and request handling

    Shallow embedding of [application.py]: the process-wide model and
    vectorizer, the double-checked loader [_load_artifacts_once], the
    inference function [_predict_text], the background eager load and the
    four Flask routes.  Python strings are sequences of code points, module
    globals are a record that every operation threads through, exceptions
    are values of [outcome], and the threads that race on the loader are a
    step relation over one shared record. *)

From Stdlib Require Import ZArith NArith List String Ascii DecimalString Lia.
From stdpp Require Import base option list gmap.

Set Default Proof Using "Type".
Set Warnings "-register-all".

(** ** Python strings *)

Module Py.

(** A [str] is a sequence of Unicode code points. *)
Abbreviation pystr := (list N).

(** A source literal (all literals of the program are ASCII). *)
Definition lit (s : string) : pystr := map N_of_ascii (list_ascii_of_string s).
Arguments lit s%_string : simpl never.

(** [str.isspace] on one code point, as CPython decides it: the ASCII
    controls 0x09-0x0D and 0x1C-0x1F, the space, and the Unicode
    white-space code points. *)
Definition isspace (c : N) : bool :=
  ((9 <=? c) && (c <=? 13) || (28 <=? c) && (c <=? 32)
   || (c =? 133) || (c =? 160) || (c =? 5760)
   || (8192 <=? c) && (c <=? 8202)
   || (c =? 8232) || (c =? 8233) || (c =? 8239) || (c =? 8287)
   || (c =? 12288))%N.

Fixpoint lstrip (s : pystr) : pystr :=
  match s with
  | [] => []
  | c :: r => if isspace c then lstrip r else s
  end.

Definition rstrip (s : pystr) : pystr := rev (lstrip (rev s)).

(** [s.strip()] *)
Definition strip (s : pystr) : pystr := rstrip (lstrip s).

(** A string that is empty or holds white space only. *)
Definition blank (s : pystr) : bool := forallb isspace s.

(** No character of the string is white space. *)
Definition no_space (s : pystr) : bool := forallb (fun c => negb (isspace c)) s.

(** [needle in haystack] on strings. *)
Fixpoint startswith (s prefix : pystr) : bool :=
  match prefix, s with
  | [], _ => true
  | _ :: _, [] => false
  | p :: prefix', c :: s' => (p =? c)%N && startswith s' prefix'
  end.

Fixpoint contains (haystack needle : pystr) : bool :=
  startswith haystack needle
  || match haystack with
     | [] => false
     | _ :: rest => contains rest needle
     end.

(** [posixpath.join(a, b)] for two components. *)
Definition path_join (a b : pystr) : pystr :=
  if startswith b (lit "/") then b
  else match last a with
       | None => b
       | Some c => if (c =? 47)%N then a ++ b else a ++ lit "/" ++ b
       end.

(** The characters [str] of a float is made of: digits, the point, the
    exponent mark and signs, and the letters of [inf] and [nan]. *)
Inductive float_char :=
| F0 | F1 | F2 | F3 | F4 | F5 | F6 | F7 | F8 | F9
| FPoint | FExp | FPlus | FMinus
| FLetter_i | FLetter_n | FLetter_f | FLetter_a.

Definition float_code (c : float_char) : N :=
  match c with
  | F0 => 48 | F1 => 49 | F2 => 50 | F3 => 51 | F4 => 52
  | F5 => 53 | F6 => 54 | F7 => 55 | F8 => 56 | F9 => 57
  | FPoint => 46 | FExp => 101 | FPlus => 43 | FMinus => 45
  | FLetter_i => 105 | FLetter_n => 110 | FLetter_f => 102 | FLetter_a => 97
  end%N.

(** The values that travel through the program as JSON field values and as
    predictions.  A float is known by the text [str] gives it, which is
    never empty; a list and a dict by the text between their brackets, the
    joined [repr] of their items.  [PBoxed r v] is a numpy scalar: [str]
    of it is [r], its [.item()] gives the native value [v], and the two
    texts differ in general (a 32-bit float prints fewer digits than the
    Python float it unwraps to).  [POpaque r] is any other object, known by
    what [str] makes of it. *)
Inductive pyval :=
| PNone
| PBool (b : bool)
| PInt (z : Z)
| PFloat (first : float_char) (rest : list float_char)
| PStr (s : pystr)
| PList (inside : pystr)
| PDict (inside : pystr)
| PBoxed (rendering : pystr) (inner : pyval)
| POpaque (rendering : pystr).

(** [str(v)] *)
Definition py_str (v : pyval) : pystr :=
  match v with
  | PNone => lit "None"
  | PBool true => lit "True"
  | PBool false => lit "False"
  | PInt z => lit (NilZero.string_of_int (Z.to_int z))
  | PFloat first rest => map float_code (first :: rest)
  | PStr s => s
  | PList inside => lit "[" ++ inside ++ lit "]"
  | PDict inside => lit "{" ++ inside ++ lit "}"
  | PBoxed rendering _ => rendering
  | POpaque rendering => rendering
  end.

(** What [json.loads] can put under a key, strings apart. *)
Definition is_json_non_string (v : pyval) : bool :=
  match v with
  | PNone | PBool _ | PInt _ | PFloat _ _ | PList _ | PDict _ => true
  | PStr _ | PBoxed _ _ | POpaque _ => false
  end.

(** [hasattr(v, "item")] and [v.item()] *)
Definition hasattr_item (v : pyval) : bool :=
  match v with PBoxed _ _ => true | _ => false end.

Definition item (v : pyval) : pyval :=
  match v with PBoxed _ inner => inner | _ => v end.

(** [x is not None] and [x is None] on a variable that holds an object or
    [None]. *)
Definition is_not_None {A} (x : option A) : bool :=
  match x with Some _ => true | None => false end.

Definition is_None {A} (x : option A) : bool := negb (is_not_None x).

(** Exceptions: the class decides which handler catches, the detail is what
    [str(e)] shows (for a missing file, the path). *)
Inductive exc_class :=
| FileNotFoundError
| PermissionError
| IsADirectoryError
| UnpicklingError
| EOFError
| AttributeError
| IndexError
| OtherException (name : pystr).

Record exn := { exn_class : exc_class; exn_detail : pystr }.

Definition is_FileNotFoundError (e : exn) : bool :=
  match exn_class e with FileNotFoundError => true | _ => false end.

Inductive outcome (A : Type) :=
| Returns (a : A)
| Raises (e : exn).
Arguments Returns {A} a.
Arguments Raises {A} e.

End Py.
Import Py.

(** ** The demo page template

    [render_template_string] is Jinja with Flask's defaults: autoescaping
    on, white space around block tags kept, one trailing newline of the
    template dropped.  The template is data, as in the source; [render] is
    the interpreter for the constructs it uses. *)

Module Jinja.

Record context := {
  model_loaded : bool;
  model_path : pystr;
  prediction : option pystr;
  error : option pystr;
  form_message : pystr   (* request.form.get("message", "") *)
}.

Inductive expr :=
| request_form_message
| prediction_var
| error_var
| model_path_var.

Inductive cond :=
| model_loaded_is_true
| prediction_is_not_none
| error_is_true.

Inductive node :=
| Text (s : string)
| Show (e : expr)
| If (c : cond) (then_ else_ : list node).

(** [markupsafe.escape] *)
Definition escape_char (c : N) : pystr :=
  if (c =? 38)%N then lit "&amp;"
  else if (c =? 60)%N then lit "&lt;"
  else if (c =? 62)%N then lit "&gt;"
  else if (c =? 39)%N then lit "&#39;"
  else if (c =? 34)%N then lit "&#34;"
  else [c].

Definition escape (s : pystr) : pystr := concat (map escape_char s).

Definition show_option (x : option pystr) : pystr :=
  match x with Some s => s | None => lit "None" end.

Definition eval (e : expr) (ctx : context) : pystr :=
  match e with
  | request_form_message => form_message ctx
  | prediction_var => show_option (prediction ctx)
  | error_var => show_option (error ctx)
  | model_path_var => model_path ctx
  end.

Definition test (c : cond) (ctx : context) : bool :=
  match c with
  | model_loaded_is_true => model_loaded ctx
  | prediction_is_not_none => is_not_None (prediction ctx)
  | error_is_true =>
      match error ctx with
      | None | Some [] => false
      | Some (_ :: _) => true
      end
  end.

Fixpoint render_node (ctx : context) (n : node) : pystr :=
  let render_nodes :=
    fix go (l : list node) : pystr :=
      match l with
      | [] => []
      | x :: r => render_node ctx x ++ go r
      end in
  match n with
  | Text s => lit s
  | Show e => escape (eval e ctx)
  | If c then_ else_ =>
      if test c ctx then render_nodes then_ else render_nodes else_
  end.

Definition render (template : list node) (ctx : context) : pystr :=
  concat (map (render_node ctx) template).

Arguments render : simpl never.

End Jinja.

Definition dq : string := String "034" EmptyString.

Open Scope string_scope.

Definition DEMO_HTML : list Jinja.node :=
  [Jinja.Text ("
<!doctype html>
<html lang=" ++ dq ++ "en" ++ dq ++ ">
<head>
  <meta charset=" ++ dq ++ "utf-8" ++ dq ++ ">
  <meta name=" ++ dq ++ "viewport" ++ dq ++ " content=" ++ dq ++ "width=device-width, initial-scale=1" ++ dq ++ ">
  <title>Text Classifier Demo</title>
  <style>
    body { font-family: -apple-system, BlinkMacSystemFont, " ++ dq ++ "Segoe UI" ++ dq ++ ", Roboto, " ++ dq ++ "Helvetica Neue" ++ dq ++ ", Arial, sans-serif; line-height: 1.6; color: #333; max-width: 800px; margin: 2rem auto; padding: 0 1rem; background-color: #f8f9fa; }
    h1, h2 { color: #0056b3; }
    h1 { text-align: center; border-bottom: 2px solid #dee2e6; padding-bottom: 0.5rem; margin-bottom: 1.5rem; }
    .container { background: #fff; padding: 2rem; border-radius: 8px; box-shadow: 0 4px 6px rgba(0,0,0,0.1); }
    .status { padding: 0.75rem 1.25rem; margin-bottom: 1rem; border: 1px solid transparent; border-radius: .25rem; }
    .status-ok { color: #155724; background-color: #d4edda; border-color: #c3e6cb; }
    .status-fail { color: #721c24; background-color: #f8d7da; border-color: #f5c6cb; }
    form { display: flex; flex-direction: column; }
    textarea { font-size: 1rem; padding: 0.5rem; border-radius: 4px; border: 1px solid #ced4da; margin-bottom: 1rem; resize: vertical; min-height: 100px; }
    button { cursor: pointer; background-color: #007bff; color: white; border: none; padding: 0.75rem 1.5rem; border-radius: 4px; font-size: 1rem; transition: background-color 0.2s; }
    button:hover { background-color: #0056b3; }
    .result, .error { margin-top: 1.5rem; padding: 1rem; border-radius: 4px; }
    .result { background-color: #e2e3e5; }
    .result h2 { margin-top: 0; }
    .error { background-color: #f8d7da; color: #721c24; }
    .error h2 { margin-top: 0; color: #721c24; }
    footer { text-align: center; margin-top: 2rem; font-size: 0.9rem; color: #6c757d; }
  </style>
</head>
<body>
  <div class=" ++ dq ++ "container" ++ dq ++ ">
    <h1>Text Classifier Demo</h1>

    <div class=" ++ dq ++ "status ");
   Jinja.If Jinja.model_loaded_is_true
     [Jinja.Text ("status-ok")]
     [Jinja.Text ("status-fail")];
   Jinja.Text (dq ++ ">
      <strong>Model Status:</strong> ");
   Jinja.If Jinja.model_loaded_is_true
     [Jinja.Text ("Loaded successfully.")]
     [Jinja.Text ("Not loaded. Predictions will fail.")];
   Jinja.Text ("
    </div>

    <form action=" ++ dq ++ "/predict-form" ++ dq ++ " method=" ++ dq ++ "post" ++ dq ++ ">
      <label for=" ++ dq ++ "message" ++ dq ++ ">Enter text to classify:</label>
      <textarea name=" ++ dq ++ "message" ++ dq ++ " id=" ++ dq ++ "message" ++ dq ++ " rows=" ++ dq ++ "6" ++ dq ++ " required>");
   Jinja.Show Jinja.request_form_message;
   Jinja.Text ("</textarea>
      <button type=" ++ dq ++ "submit" ++ dq ++ ">Predict</button>
    </form>

    ");
   Jinja.If Jinja.prediction_is_not_none
     [Jinja.Text ("
      <div class=" ++ dq ++ "result" ++ dq ++ ">
        <h2>Prediction</h2>
        <p>The model classified the text as: <strong>");
      Jinja.Show Jinja.prediction_var;
      Jinja.Text ("</strong></p>
      </div>
    ")]
     [];
   Jinja.Text ("

    ");
   Jinja.If Jinja.error_is_true
     [Jinja.Text ("
      <div class=" ++ dq ++ "error" ++ dq ++ ">
        <h2>Error</h2>
        <p>");
      Jinja.Show Jinja.error_var;
      Jinja.Text ("</p>
      </div>
    ")]
     [];
   Jinja.Text ("
  </div>
  <footer>
    <p>Using model: <code>");
   Jinja.Show Jinja.model_path_var;
   Jinja.Text ("</code></p>
  </footer>
</body>
</html>")].

Close Scope string_scope.

(** ** The process: module globals, artifact files, the loader *)

Inductive artifact := Model | Vectorizer.

Inductive log_level := INFO | WARNING | ERROR.

(** What a run leaves behind besides its result, newest first: lock
    traffic, file opens, [pickle.load] calls, log records, and entries into
    the inference function. *)
Inductive event :=
| LockAcquired
| LockReleased
| OpenCalled (path : pystr)
| PickleLoadCalled (a : artifact)
| Logged (level : log_level) (msg : pystr)
| PredictTextCalled (message : pystr).

Section Process.

(** The feature representation that [transform] hands to [predict]. *)
Context {Features : Type}.

(** A deserialized object is duck-typed: it has the method or the call
    raises [AttributeError]. *)
Record pyobj := {
  transform : option (list pystr -> outcome Features);
  predict : option (Features -> outcome (list pyval))
}.

(** [open(path, "rb")] followed by [pickle.load]: [open] raises, or
    [pickle.load] raises, or an object comes out ([None] when the pickle
    holds Python's [None]). *)
Inductive file_read :=
| OpenError (e : exn)
| PickleError (e : exn)
| Unpickled (o : option pyobj).

Definition filesystem : Type := pystr -> file_read.

Record process := {
  MODEL_PATH : pystr;
  VECTORIZER_PATH : pystr;
  _loaded_model : option pyobj;
  _vectorizer : option pyobj;
  events : list event
}.

Definition emit (ev : event) (g : process) : process :=
  {| MODEL_PATH := MODEL_PATH g;
     VECTORIZER_PATH := VECTORIZER_PATH g;
     _loaded_model := _loaded_model g;
     _vectorizer := _vectorizer g;
     events := ev :: events g |}.

Definition set_loaded_model (o : option pyobj) (g : process) : process :=
  {| MODEL_PATH := MODEL_PATH g;
     VECTORIZER_PATH := VECTORIZER_PATH g;
     _loaded_model := o;
     _vectorizer := _vectorizer g;
     events := events g |}.

Definition set_vectorizer (o : option pyobj) (g : process) : process :=
  {| MODEL_PATH := MODEL_PATH g;
     VECTORIZER_PATH := VECTORIZER_PATH g;
     _loaded_model := _loaded_model g;
     _vectorizer := o;
     events := events g |}.

(** [os.getenv(name) or default] *)
Definition getenv_or (env : gmap pystr pystr) (name default : pystr) : pystr :=
  match env !! name with
  | Some (c :: v) => c :: v
  | Some [] | None => default
  end.

(** The module body at import: the two paths are resolved, both artifacts
    start as [None].  [base_dir] is the directory of the source file.  The
    three log lines of the import are not recorded, and the thread started
    at import is one of the threads of [cold_start] below. *)
Definition import_module (env : gmap pystr pystr) (base_dir : pystr) : process :=
  {| MODEL_PATH :=
       getenv_or env (lit "MODEL_PATH")
                 (path_join base_dir (lit "basic_classifier.pkl"));
     VECTORIZER_PATH :=
       getenv_or env (lit "VECTORIZER_PATH")
                 (path_join base_dir (lit "count_vectorizer.pkl"));
     _loaded_model := None;
     _vectorizer := None;
     events := [] |}.

(** [with open(path, "rb") as f: ... pickle.load(f)] *)
Definition unpickle (fs : filesystem) (path : pystr) (a : artifact)
    (g : process) : process * outcome (option pyobj) :=
  let g := emit (OpenCalled path) g in
  match fs path with
  | OpenError e => (g, Raises e)
  | PickleError e => (emit (PickleLoadCalled a) g, Raises e)
  | Unpickled o => (emit (PickleLoadCalled a) g, Returns o)
  end.

(** [bool(_loaded_model is not None and _vectorizer is not None)] *)
Definition both_loaded (g : process) : bool :=
  is_not_None (_loaded_model g) && is_not_None (_vectorizer g).

(** One caller running the loader with nobody else in the way; the lock is
    free on entry and free again on exit, also when an exception leaves
    the [with] block. *)
Definition _load_artifacts_once (fs : filesystem) (g : process)
    : process * outcome unit :=
  if is_not_None (_loaded_model g) && is_not_None (_vectorizer g) then
    (g, Returns tt)
  else
    let g := emit LockAcquired g in
    if is_None (_loaded_model g) || is_None (_vectorizer g) then
      let g := emit (Logged INFO (lit "Loading artifacts...")) g in
      match unpickle fs (MODEL_PATH g) Model g with
      | (g, Raises e) => (emit LockReleased g, Raises e)
      | (g, Returns m) =>
          let g := set_loaded_model m g in
          match unpickle fs (VECTORIZER_PATH g) Vectorizer g with
          | (g, Raises e) => (emit LockReleased g, Raises e)
          | (g, Returns v) =>
              let g := set_vectorizer v g in
              let g := emit (Logged INFO (lit "Artifacts loaded.")) g in
              (emit LockReleased g, Returns tt)
          end
      end
    else (emit LockReleased g, Returns tt).

Definition attribute_error (what : string) : exn :=
  {| exn_class := AttributeError; exn_detail := lit what |}.
Arguments attribute_error what%_string.

(** [_vectorizer.transform(batch)] *)
Definition call_transform (o : option pyobj) (batch : list pystr)
    : outcome Features :=
  match o with
  | None => Raises (attribute_error "'NoneType' object has no attribute 'transform'")
  | Some obj =>
      match transform obj with
      | None => Raises (attribute_error "object has no attribute 'transform'")
      | Some f => f batch
      end
  end.

(** [_loaded_model.predict(X)] *)
Definition call_predict (o : option pyobj) (X : Features)
    : outcome (list pyval) :=
  match o with
  | None => Raises (attribute_error "'NoneType' object has no attribute 'predict'")
  | Some obj =>
      match predict obj with
      | None => Raises (attribute_error "object has no attribute 'predict'")
      | Some f => f X
      end
  end.

Definition _predict_text (fs : filesystem) (message : pystr) (g : process)
    : process * outcome pystr :=
  let g := emit (PredictTextCalled message) g in
  match _load_artifacts_once fs g with
  | (g, Raises e) => (g, Raises e)
  | (g, Returns _) =>
      match call_transform (_vectorizer g) [message] with
      | Raises e => (g, Raises e)
      | Returns X =>
          match call_predict (_loaded_model g) X with
          | Raises e => (g, Raises e)
          | Returns pred =>
              match pred with
              | [] => (g, Raises {| exn_class := IndexError;
                                    exn_detail := lit "list index out of range" |})
              | val :: _ =>
                  let val_py := if hasattr_item val then item val else val in
                  (g, Returns (py_str val_py))
              end
          end
      end
  end.

(** The body of the thread started at import. *)
Definition _eager_load_background (fs : filesystem) (g : process) : process :=
  match _load_artifacts_once fs g with
  | (g, Returns _) => g
  | (g, Raises e) =>
      emit (Logged WARNING (lit "Background eager load failed: " ++ exn_detail e)) g
  end.

End Process.

Arguments pyobj : clear implicits.
Arguments file_read : clear implicits.
Arguments filesystem : clear implicits.
Arguments process : clear implicits.

(** ** The routes *)

Inductive json_value :=
| JString (s : pystr)
| JBoolean (b : bool).

(** What goes back to the client: a [jsonify]-ed dict, a rendered page, or
    the framework's own page for an exception no handler caught. *)
Inductive body :=
| JsonBody (fields : list (pystr * json_value))
| HtmlBody (html : pystr)
| InternalServerErrorPage.

Record response := { status : Z; payload : body }.

(** A field of a JSON response, [None] when the response is not JSON or has
    no such field. *)
Fixpoint assoc (key : pystr) (fields : list (pystr * json_value))
    : option json_value :=
  match fields with
  | [] => None
  | (k, v) :: rest => if decide (k = key) then Some v else assoc key rest
  end.

Definition json_field (key : pystr) (r : response) : option json_value :=
  match payload r with
  | JsonBody fields => assoc key fields
  | _ => None
  end.

(** The text of a rendered page; empty for a response that is not a page. *)
Definition html_of (r : response) : pystr :=
  match payload r with
  | HtmlBody html => html
  | _ => []
  end.

(** [request.get_json(silent=True)]: nothing usable ([None]), a JSON
    object, or another JSON value, of which only its truth value matters. *)
Inductive json_request :=
| NoJson
| JsonObject (d : gmap pystr pyval)
| JsonOther (truthy : bool).

Inductive request :=
| GET_root
| GET_demo
| POST_predict_form (message : option pystr)
| POST_predict (json : json_request).

Definition required_message : pystr :=
  lit "Field 'message' is required and must be non-empty.".
Definition artifacts_not_found : pystr :=
  lit "Model artifacts not found on server.".
Definition inference_failed : pystr := lit "Inference failed.".

Section Routes.

Context {Features : Type}.
Abbreviation process := (process Features).
Abbreviation filesystem := (filesystem Features).

Definition health (g : process) : response :=
  {| status := 200;
     payload := JsonBody
       [ (lit "status", JString (lit "ok"));
         (lit "model_loaded", JBoolean (both_loaded g));
         (lit "model_path", JString (MODEL_PATH g));
         (lit "vectorizer_path", JString (VECTORIZER_PATH g)) ] |}.

Definition page (ctx : Jinja.context) : body :=
  HtmlBody (Jinja.render DEMO_HTML ctx).

Definition demo (g : process) : response :=
  {| status := 200;
     payload := page {| Jinja.model_loaded := both_loaded g;
                        Jinja.model_path := MODEL_PATH g;
                        Jinja.prediction := None;
                        Jinja.error := None;
                        Jinja.form_message := [] |} |}.

(** [request.form.get("message") or ""] *)
Definition form_or_empty (field : option pystr) : pystr :=
  match field with Some s => s | None => [] end.

Definition predict_form (fs : filesystem) (field : option pystr) (g : process)
    : process * response :=
  let shown := form_or_empty field in
  let message := strip (form_or_empty field) in
  match message with
  | [] =>
      (g, {| status := 400;
             payload := page {| Jinja.model_loaded := both_loaded g;
                                Jinja.model_path := MODEL_PATH g;
                                Jinja.prediction := None;
                                Jinja.error := Some required_message;
                                Jinja.form_message := shown |} |})
  | _ :: _ =>
      match _predict_text fs message g with
      | (g, Returns label) =>
          (g, {| status := 200;
                 payload := page {| Jinja.model_loaded := true;
                                    Jinja.model_path := MODEL_PATH g;
                                    Jinja.prediction := Some label;
                                    Jinja.error := None;
                                    Jinja.form_message := shown |} |})
      | (g, Raises e) =>
          if is_FileNotFoundError e then
            (g, {| status := 503;
                   payload := page {| Jinja.model_loaded := false;
                                      Jinja.model_path := MODEL_PATH g;
                                      Jinja.prediction := None;
                                      Jinja.error := Some artifacts_not_found;
                                      Jinja.form_message := shown |} |})
          else
            let g := emit (Logged ERROR (lit "Inference error: " ++ exn_detail e)) g in
            (g, {| status := 500;
                   payload := page {| Jinja.model_loaded := both_loaded g;
                                      Jinja.model_path := MODEL_PATH g;
                                      Jinja.prediction := None;
                                      Jinja.error := Some inference_failed;
                                      Jinja.form_message := shown |} |})
      end
  end.

(** Lines 193-194: [data = request.get_json(silent=True) or {}] and
    [str(data.get("message", "")).strip()].  A truthy value that is not a
    dict has no [get]; the exception is raised outside the [try], so the
    framework answers with its own 500 page and logs the exception on the
    application's logger. *)
Definition json_message (json : json_request) : outcome pystr :=
  match json with
  | NoJson | JsonOther false => Returns (strip (py_str (PStr [])))
  | JsonOther true =>
      Raises {| exn_class := AttributeError;
                exn_detail := lit "object has no attribute 'get'" |}
  | JsonObject d =>
      Returns (strip (py_str (default (PStr []) (d !! lit "message"))))
  end.

Definition error_json (code : Z) (msg : pystr) : response :=
  {| status := code; payload := JsonBody [(lit "error", JString msg)] |}.

Definition predict_json (fs : filesystem) (json : json_request) (g : process)
    : process * response :=
  match json_message json with
  | Raises _ =>
      (emit (Logged ERROR (lit "Exception on /predict [POST]")) g,
       {| status := 500; payload := InternalServerErrorPage |})
  | Returns [] => (g, error_json 400 required_message)
  | Returns ((_ :: _) as message) =>
      match _predict_text fs message g with
      | (g, Returns label) =>
          (g, {| status := 200;
                 payload := JsonBody [(lit "label", JString label)] |})
      | (g, Raises e) =>
          if is_FileNotFoundError e then (g, error_json 503 artifacts_not_found)
          else
            let g := emit (Logged ERROR (lit "Inference error: " ++ exn_detail e)) g in
            (g, error_json 500 inference_failed)
      end
  end.

(** Flask's dispatch over the registered routes. *)
Definition handle (fs : filesystem) (req : request) (g : process)
    : process * response :=
  match req with
  | GET_root => (g, health g)
  | GET_demo => (g, demo g)
  | POST_predict_form field => predict_form fs field g
  | POST_predict json => predict_json fs json g
  end.

(** [ensure_loaded] called [n] times in a row. *)
Fixpoint load_repeatedly (fs : filesystem) (n : nat) (g : process) : process :=
  match n with
  | O => g
  | S k => load_repeatedly fs k (fst (_load_artifacts_once fs g))
  end.

(** How often [pickle.load] ran on an artifact's file. *)
Definition is_pickle_load (a : artifact) (ev : event) : bool :=
  match ev, a with
  | PickleLoadCalled Model, Model => true
  | PickleLoadCalled Vectorizer, Vectorizer => true
  | _, _ => false
  end.

Fixpoint count_events (p : event -> bool) (l : list event) : nat :=
  match l with
  | [] => 0
  | ev :: r => (if p ev then 1 else 0) + count_events p r
  end.

Definition deserializations (a : artifact) (g : process) : nat :=
  count_events (is_pickle_load a) (events g).

End Routes.

Arguments page : simpl never.

(** ** Threads racing on the loader

    Every thread runs [_load_artifacts_once] once.  A thread is where it
    stands in that function; a step is what it does between two points at
    which the interpreter may switch threads: one read of a global, one
    store, one lock operation, one file load. *)

Section Threads.

Context {Features : Type}.
Abbreviation process := (process Features).
Abbreviation filesystem := (filesystem Features).
Abbreviation pyobj := (pyobj Features).

Inductive pc :=
| AtFastModel                      (* line 33, reading _loaded_model *)
| AtFastVectorizer                 (* line 33, reading _vectorizer *)
| AtAcquire                        (* line 35, entering the with block *)
| AtCheckModel                     (* line 36, reading _loaded_model *)
| AtCheckVectorizer                (* line 36, reading _vectorizer *)
| AtOpenModel                      (* lines 38-40, open and pickle.load *)
| AtStoreModel (o : option pyobj)  (* line 40, the assignment *)
| AtOpenVectorizer                 (* lines 41-42, open and pickle.load *)
| AtStoreVectorizer (o : option pyobj)  (* lines 42-43 *)
| AtRelease (pending : option exn) (* leaving the with block *)
| Finished (r : outcome unit).

Record system := {
  proc : process;
  locked : bool;                   (* _artifact_lock *)
  threads : list pc
}.

Definition thread_step (fs : filesystem) (g : process) (l : bool) (p : pc)
    : option (process * bool * pc) :=
  match p with
  | AtFastModel =>
      Some (g, l, if is_not_None (_loaded_model g) then AtFastVectorizer
                  else AtAcquire)
  | AtFastVectorizer =>
      Some (g, l, if is_not_None (_vectorizer g) then Finished (Returns tt)
                  else AtAcquire)
  | AtAcquire =>
      if l then None else Some (emit LockAcquired g, true, AtCheckModel)
  | AtCheckModel =>
      Some (g, l, if is_None (_loaded_model g) then AtOpenModel
                  else AtCheckVectorizer)
  | AtCheckVectorizer =>
      Some (g, l, if is_None (_vectorizer g) then AtOpenModel
                  else AtRelease None)
  | AtOpenModel =>
      let g := emit (Logged INFO (lit "Loading artifacts...")) g in
      match unpickle fs (MODEL_PATH g) Model g with
      | (g, Raises e) => Some (g, l, AtRelease (Some e))
      | (g, Returns o) => Some (g, l, AtStoreModel o)
      end
  | AtStoreModel o => Some (set_loaded_model o g, l, AtOpenVectorizer)
  | AtOpenVectorizer =>
      match unpickle fs (VECTORIZER_PATH g) Vectorizer g with
      | (g, Raises e) => Some (g, l, AtRelease (Some e))
      | (g, Returns o) => Some (g, l, AtStoreVectorizer o)
      end
  | AtStoreVectorizer o =>
      Some (emit (Logged INFO (lit "Artifacts loaded.")) (set_vectorizer o g),
            l, AtRelease None)
  | AtRelease pending =>
      Some (emit LockReleased g, false,
            Finished (match pending with
                      | None => Returns tt
                      | Some e => Raises e
                      end))
  | Finished _ => None
  end.

(** Thread [i] takes its next step; [None] when there is no such thread,
    when it has finished, or when it waits for the lock. *)
Definition step (fs : filesystem) (i : nat) (s : system) : option system :=
  match threads s !! i with
  | None => None
  | Some p =>
      match thread_step fs (proc s) (locked s) p with
      | None => None
      | Some (g, l, p') =>
          Some {| proc := g; locked := l; threads := <[i := p']> (threads s) |}
      end
  end.

(** A schedule names the thread that moves next. *)
Fixpoint run (fs : filesystem) (schedule : list nat) (s : system)
    : option system :=
  match schedule with
  | [] => Some s
  | i :: rest =>
      match step fs i s with
      | None => None
      | Some s' => run fs rest s'
      end
  end.

(** [n] callers at the top of the loader, the lock free. *)
Definition cold_start (g : process) (n : nat) : system :=
  {| proc := g; locked := false; threads := replicate n AtFastModel |}.

Definition holds_lock (p : pc) : bool :=
  match p with
  | AtFastModel | AtFastVectorizer | AtAcquire | Finished _ => false
  | _ => true
  end.

Definition is_finished (p : pc) : bool :=
  match p with Finished _ => true | _ => false end.

(** A thread between [open] and the end of the stores: it is
    deserializing, or holds what it deserialized. *)
Definition is_deserializing (p : pc) : bool :=
  match p with
  | AtOpenModel | AtStoreModel _ | AtOpenVectorizer | AtStoreVectorizer _ => true
  | _ => false
  end.

(** Steps a thread still has before it finishes, at most. *)
Definition steps_left (p : pc) : nat :=
  match p with
  | AtFastModel => 10
  | AtFastVectorizer => 9
  | AtAcquire => 8
  | AtCheckModel => 7
  | AtCheckVectorizer => 6
  | AtOpenModel => 5
  | AtStoreModel _ => 4
  | AtOpenVectorizer => 3
  | AtStoreVectorizer _ => 2
  | AtRelease _ => 1
  | Finished _ => 0
  end.

(** One thread alone, driven until it stops. *)
Fixpoint drive (fs : filesystem) (fuel : nat) (s : system) : system :=
  match fuel with
  | O => s
  | S k =>
      match step fs 0 s with
      | None => s
      | Some s' => drive fs k s'
      end
  end.

(** Steps all threads together still have, at most. *)
Fixpoint total_steps_left (ts : list pc) : nat :=
  match ts with
  | [] => 0
  | p :: rest => steps_left p + total_steps_left rest
  end.

(** *** The invariant of a cold start whose two files hold objects

    [m] and [v] are what the model file and the vectorizer file hold, [nm]
    and [nv] how often each had been deserialized before the start. *)

Definition cold (nm nv : nat) (g : process) : Prop :=
  _loaded_model g = None /\ _vectorizer g = None
  /\ deserializations Model g = nm /\ deserializations Vectorizer g = nv.

Definition loaded (m v : pyobj) (nm nv : nat) (g : process) : Prop :=
  _loaded_model g = Some m /\ _vectorizer g = Some v
  /\ deserializations Model g = S nm /\ deserializations Vectorizer g = S nv.

(** What a thread standing at [p] may rely on. *)
Definition thread_ok (m v : pyobj) (nm nv : nat) (g : process) (p : pc) : Prop :=
  match p with
  | AtFastModel | AtFastVectorizer | AtAcquire => True
  | AtCheckModel | AtCheckVectorizer => cold nm nv g \/ loaded m v nm nv g
  | AtOpenModel => cold nm nv g
  | AtStoreModel o =>
      o = Some m /\ _loaded_model g = None /\ _vectorizer g = None
      /\ deserializations Model g = S nm /\ deserializations Vectorizer g = nv
  | AtOpenVectorizer =>
      _loaded_model g = Some m /\ _vectorizer g = None
      /\ deserializations Model g = S nm /\ deserializations Vectorizer g = nv
  | AtStoreVectorizer o =>
      o = Some v /\ _loaded_model g = Some m /\ _vectorizer g = None
      /\ deserializations Model g = S nm /\ deserializations Vectorizer g = S nv
  | AtRelease None => loaded m v nm nv g
  | AtRelease (Some _) => False
  | Finished r => r = Returns tt /\ loaded m v nm nv g
  end.

Record invariant (mp vp : pystr) (m v : pyobj) (nm nv : nat) (s : system)
    : Prop := {
  inv_model_path : MODEL_PATH (proc s) = mp;
  inv_vectorizer_path : VECTORIZER_PATH (proc s) = vp;
  inv_mutex : forall i j pi pj,
    threads s !! i = Some pi -> threads s !! j = Some pj ->
    holds_lock pi = true -> holds_lock pj = true -> i = j;
  inv_unlocked : locked s = false ->
    forall i p, threads s !! i = Some p -> holds_lock p = false;
  inv_locked : locked s = true ->
    exists i p, threads s !! i = Some p /\ holds_lock p = true;
  inv_at_rest : locked s = false ->
    cold nm nv (proc s) \/ loaded m v nm nv (proc s);
  inv_threads : forall i p,
    threads s !! i = Some p -> thread_ok m v nm nv (proc s) p
}.

End Threads.

Arguments pc : clear implicits.
Arguments system : clear implicits.

(** ** Stub artifacts and file systems for concrete runs *)

Module Fixtures.

(** The feature representation of the stubs is the batch itself. *)
Definition stub_vectorizer : pyobj (list pystr) :=
  {| transform := Some (fun batch => Returns batch); predict := None |}.

(** A classifier that answers [label] for every row. *)
Definition stub_classifier (label : pyval) : pyobj (list pystr) :=
  {| transform := None;
     predict := Some (fun X => Returns (map (fun _ => label) X)) |}.

(** A numpy 32-bit float: it prints as 0.1, and unwraps to the Python
    float that prints as 0.10000000149011612. *)
Definition float32_tenth : pyval :=
  PBoxed (lit "0.1")
         (PFloat F0 [FPoint; F1; F0; F0; F0; F0; F0; F0; F0;
                     F1; F4; F9; F0; F1; F1; F6; F1; F2]).

(** A classifier that answers each row with the row's own text. *)
Definition echo_classifier : pyobj (list pystr) :=
  {| transform := None; predict := Some (fun X => Returns (map PStr X)) |}.

(** A vectorizer whose [transform] raises. *)
Definition failing_vectorizer : pyobj (list pystr) :=
  {| transform :=
       Some (fun _ => Raises {| exn_class := OtherException (lit "ValueError");
                                exn_detail := lit "vocabulary not fitted" |});
     predict := None |}.

Definition model_pkl : pystr := lit "/srv/app/basic_classifier.pkl".
Definition vectorizer_pkl : pystr := lit "/srv/app/count_vectorizer.pkl".

Definition not_found (path : pystr) : exn :=
  {| exn_class := FileNotFoundError;
     exn_detail := lit "[Errno 2] No such file or directory: " ++ path |}.

Definition missing (path : pystr) : file_read (list pystr) :=
  OpenError (not_found path).

Definition corrupt : file_read (list pystr) :=
  PickleError {| exn_class := UnpicklingError;
                 exn_detail := lit "invalid load key" |}.

(** Both files in place. *)
Definition fs_with (model vectorizer : pyobj (list pystr))
    : filesystem (list pystr) :=
  fun path =>
    if decide (path = model_pkl) then Unpickled (Some model)
    else if decide (path = vectorizer_pkl) then Unpickled (Some vectorizer)
    else missing path.

(** No artifact file deployed. *)
Definition fs_empty : filesystem (list pystr) := missing.

(** The model file in place, the vectorizer file missing. *)
Definition fs_model_only : filesystem (list pystr) :=
  fun path =>
    if decide (path = model_pkl)
    then Unpickled (Some (stub_classifier (PStr (lit "FAKE"))))
    else missing path.

(** The model file present but not a pickle. *)
Definition fs_corrupt_model : filesystem (list pystr) :=
  fun path => if decide (path = model_pkl) then corrupt else missing path.

(** The process right after import, no path override in the environment. *)
Definition fresh : process (list pystr) := import_module ∅ (lit "/srv/app").

(** Both files in place, the classifier answering FAKE. *)
Definition fs_deployed : filesystem (list pystr) :=
  fs_with (stub_classifier (PStr (lit "FAKE"))) stub_vectorizer.

(** A JSON body with one field, [message]. *)
Definition message_json (v : pyval) : json_request :=
  JsonObject {[ lit "message" := v ]}.

(** An environment that overrides the model path and sets the vectorizer
    path to the empty string. *)
Definition env_override : gmap pystr pystr :=
  <[ lit "MODEL_PATH" := lit "/opt/models/clf.pkl" ]>
    (<[ lit "VECTORIZER_PATH" := [] ]> ∅).

(** Two callers that both pass the fast-path test before either has the
    lock; the first goes through the lock to the end, then the second
    does.  [loading_schedule] is for a load that stores both artifacts,
    [failing_schedule] for one that stops at the vectorizer file. *)
Definition loading_schedule : list nat :=
  [0; 1; 0; 0; 0; 0; 0; 0; 0; 1; 1; 1; 1].

Definition failing_schedule : list nat :=
  [0; 1; 0; 0; 0; 0; 0; 0; 1; 1; 1; 1; 1; 1; 1].

(** A vectorizer whose [transform] raises [FileNotFoundError], as one that
    reads a vocabulary file of its own would. *)
Definition vanishing_vectorizer : pyobj (list pystr) :=
  {| transform := Some (fun _ => Raises (not_found (lit "vocabulary.txt")));
     predict := None |}.

(** The process after a first load that found both files. *)
Definition warm : process (list pystr) :=
  fst (_load_artifacts_once fs_deployed fresh).

(** Both files in place, the classifier answering REAL. *)
Definition fs_redeployed : filesystem (list pystr) :=
  fs_with (stub_classifier (PStr (lit "REAL"))) stub_vectorizer.

End Fixtures.

(** ** Notions used to state further properties *)

Section Anatomy.

Context {Features : Type}.
Abbreviation process := (process Features).
Abbreviation filesystem := (filesystem Features).
Abbreviation pyobj := (pyobj Features).

(** Lines 49-54 of [_predict_text] on their own: what the inference
    function computes from the two globals once the loader has returned. *)
Definition infer (vec clf : option pyobj) (message : pystr) : outcome pystr :=
  match call_transform vec [message] with
  | Raises e => Raises e
  | Returns X =>
      match call_predict clf X with
      | Raises e => Raises e
      | Returns [] => Raises {| exn_class := IndexError;
                                exn_detail := lit "list index out of range" |}
      | Returns (val :: _) =>
          Returns (py_str (if hasattr_item val then item val else val))
      end
  end.

(** Lines 198-204: how [predict_json] answers what [_predict_text] gave. *)
Definition reply_json (run : process * outcome pystr) : process * response :=
  match run with
  | (g, Returns label) =>
      (g, {| status := 200;
             payload := JsonBody [(lit "label", JString label)] |})
  | (g, Raises e) =>
      if is_FileNotFoundError e then (g, error_json 503 artifacts_not_found)
      else (emit (Logged ERROR (lit "Inference error: " ++ exn_detail e)) g,
            error_json 500 inference_failed)
  end.

(** The process and the status of a run, without the body. *)
Definition outline (run : process * response) : process * Z :=
  (fst run, status (snd run)).

Definition is_lock_event (ev : event) : bool :=
  match ev with LockAcquired | LockReleased => true | _ => false end.

Definition is_file_event (ev : event) : bool :=
  match ev with OpenCalled _ | PickleLoadCalled _ => true | _ => false end.

Definition is_error_log (ev : event) : bool :=
  match ev with Logged ERROR _ => true | _ => false end.

(** [e] is what reading the file at [path] raises. *)
Definition raised_by (fs : filesystem) (path : pystr) (e : exn) : Prop :=
  fs path = OpenError e \/ fs path = PickleError e.

(** The exception a thread carries out of the loader, if any. *)
Definition carried (p : pc Features) : option exn :=
  match p with
  | AtRelease (Some e) | Finished (Raises e) => Some e
  | _ => None
  end.

(** What holds of the lock and of the callers' exceptions whatever the two
    files hold. *)
Record lock_invariant (fs : filesystem) (mp vp : pystr) (s : system Features)
    : Prop := {
  li_model_path : MODEL_PATH (proc s) = mp;
  li_vectorizer_path : VECTORIZER_PATH (proc s) = vp;
  li_mutex : forall i j pi pj,
    threads s !! i = Some pi -> threads s !! j = Some pj ->
    holds_lock pi = true -> holds_lock pj = true -> i = j;
  li_unlocked : locked s = false ->
    forall i p, threads s !! i = Some p -> holds_lock p = false;
  li_locked : locked s = true ->
    exists i p, threads s !! i = Some p /\ holds_lock p = true;
  li_carried : forall i p e,
    threads s !! i = Some p -> carried p = Some e ->
    raised_by fs mp e \/ raised_by fs vp e
}.

(** A functional test of [test_app.py]: post [{"message": text}] to
    [/predict] and assert [response.json()["label"] == expected].  The
    request reaches [predict_json] as it was sent; an answer without a
    [label] field makes the subscript raise, and the test does not pass. *)
Definition functional_test (fs : filesystem) (g : process)
    (text expected : pystr) : bool :=
  match json_field (lit "label")
          (snd (predict_json fs (JsonObject {[ lit "message" := PStr text ]}) g))
  with
  | Some (JString label) => bool_decide (label = expected)
  | _ => false
  end.

End Anatomy.


(** * Properties *)

(** ** Strings *)

Section StringFacts.

Lemma lstrip_head (s : pystr) :
  lstrip s = [] \/ exists c r, lstrip s = c :: r /\ isspace c = false.
Proof.
  induction s as [|c r IH]; simpl; [by left|].
  destruct (isspace c) eqn:E; [exact IH|].
  right. by exists c, r.
Qed.

Lemma blank_app (s t : pystr) : blank (s ++ t) = blank s && blank t.
Proof. unfold blank. apply forallb_app. Qed.

Lemma rstrip_not_blank (s : pystr) : rstrip s <> [] -> blank (rstrip s) = false.
Proof.
  unfold rstrip. intros Hne.
  destruct (lstrip_head (rev s)) as [E | (c & r & E & Hc)].
  - rewrite E in Hne. done.
  - rewrite E. simpl. rewrite blank_app. simpl. rewrite Hc.
    by rewrite andb_false_r.
Qed.

(** What [strip] returns is empty or has a character that is not white
    space. *)
Lemma strip_not_blank (s : pystr) : strip s <> [] -> blank (strip s) = false.
Proof. apply rstrip_not_blank. Qed.

Lemma lstrip_no_space (s : pystr) : no_space s = true -> lstrip s = s.
Proof.
  destruct s as [|c r]; simpl; [done|].
  intros H. apply andb_prop in H as [Hc _].
  by destruct (isspace c).
Qed.

Lemma no_space_rev (s : pystr) : no_space s = true -> no_space (rev s) = true.
Proof.
  unfold no_space. rewrite !forallb_forall. intros H c Hin.
  apply H. by apply in_rev.
Qed.

Lemma strip_no_space (s : pystr) : no_space s = true -> strip s = s.
Proof.
  intros H. unfold strip, rstrip.
  rewrite (lstrip_no_space s H).
  rewrite (lstrip_no_space (rev s) (no_space_rev s H)).
  apply rev_involutive.
Qed.

Lemma no_space_uint (u : Decimal.uint) :
  no_space (lit (NilEmpty.string_of_uint u)) = true.
Proof. induction u; simpl; auto. Qed.

Lemma no_space_int (z : Z) : no_space (py_str (PInt z)) = true.
Proof.
  simpl. destruct (Z.to_int z) as [u | u]; simpl.
  - destruct u; try apply (no_space_uint (Decimal.D0 u)); try done;
      simpl; apply no_space_uint.
  - destruct u; simpl; try done; apply no_space_uint.
Qed.

Lemma int_not_empty (z : Z) : py_str (PInt z) <> [].
Proof.
  simpl. destruct (Z.to_int z) as [u | u]; simpl; [|done].
  by destruct u.
Qed.

Lemma no_space_float (first : float_char) (rest : list float_char) :
  no_space (py_str (PFloat first rest)) = true.
Proof.
  unfold py_str, no_space. rewrite forallb_forall. intros c Hin.
  apply in_map_iff in Hin as (f & <- & _). by destruct f.
Qed.

(** A text between two characters that are not white space is left alone
    by [strip]. *)
Lemma strip_between (c c' : N) (mid : pystr) :
  isspace c = false -> isspace c' = false ->
  strip (c :: mid ++ [c']) = c :: mid ++ [c'].
Proof.
  intros Hc Hc'. unfold strip, rstrip.
  assert (Hl : lstrip (c :: mid ++ [c']) = c :: mid ++ [c'])
    by (cbn; by rewrite Hc).
  rewrite Hl.
  assert (Hr : rev (c :: mid ++ [c']) = c' :: rev mid ++ [c]).
  { change (c :: mid ++ [c']) with ([c] ++ mid ++ [c']).
    by rewrite !rev_app_distr. }
  rewrite Hr. cbn [lstrip]. rewrite Hc'. rewrite <- Hr.
  apply rev_involutive.
Qed.

(** [str] of a JSON value that is not a string is never empty and
    [strip] leaves it as it is. *)
Lemma non_string_text (v : pyval) :
  is_json_non_string v = true ->
  strip (py_str v) = py_str v /\ py_str v <> [].
Proof.
  destruct v as [|[|]|z|f r|s|inside|inside|r inner|r]; try discriminate;
    intros _.
  - by split.
  - by split.
  - by split.
  - split; [apply strip_no_space, no_space_int | apply int_not_empty].
  - split; [apply strip_no_space, no_space_float | done].
  - split; [|done]. by apply (strip_between 91 93 inside).
  - split; [|done]. by apply (strip_between 123 125 inside).
Qed.

End StringFacts.

(** ** The loader, one caller at a time *)

Section LoaderFacts.

Context {Features : Type}.
Implicit Types (g : process Features) (fs : filesystem Features).

(** Case analysis on a loader run: the two globals, then each file. *)
Ltac loader_cases g fs :=
  destruct g as [mp vp [m|] [v|] evs];
  unfold _load_artifacts_once, unpickle, both_loaded; cbn;
  try destruct (fs mp) as [e1|e1|m1]; cbn;
  try destruct (fs vp) as [e2|e2|v1]; cbn.

Lemma load_fast_path fs g :
  both_loaded g = true -> _load_artifacts_once fs g = (g, Returns tt).
Proof.
  unfold both_loaded, _load_artifacts_once. by intros ->.
Qed.

Lemma load_repeatedly_loaded fs n g :
  both_loaded g = true -> load_repeatedly fs n g = g.
Proof.
  intros H. induction n as [|n IH]; simpl; [done|].
  by rewrite (load_fast_path fs g H).
Qed.

Lemma load_keeps_paths fs g :
  MODEL_PATH (fst (_load_artifacts_once fs g)) = MODEL_PATH g
  /\ VECTORIZER_PATH (fst (_load_artifacts_once fs g)) = VECTORIZER_PATH g.
Proof. loader_cases g fs; done. Qed.

(** A log entry made before the call changes neither what the loader
    returns nor what it stores. *)
Lemma load_after_emit fs ev g :
  snd (_load_artifacts_once fs (emit ev g)) = snd (_load_artifacts_once fs g)
  /\ _loaded_model (fst (_load_artifacts_once fs (emit ev g)))
     = _loaded_model (fst (_load_artifacts_once fs g))
  /\ _vectorizer (fst (_load_artifacts_once fs (emit ev g)))
     = _vectorizer (fst (_load_artifacts_once fs g))
  /\ MODEL_PATH (fst (_load_artifacts_once fs (emit ev g))) = MODEL_PATH g.
Proof. loader_cases g fs; done. Qed.

(** Both files hold objects: the loader stores both and returns. *)
Lemma load_success fs g m v :
  both_loaded g = false ->
  fs (MODEL_PATH g) = Unpickled m ->
  fs (VECTORIZER_PATH g) = Unpickled v ->
  exists g',
    _load_artifacts_once fs g = (g', Returns tt)
    /\ _loaded_model g' = m /\ _vectorizer g' = v
    /\ events g' =
         [ LockReleased; Logged INFO (lit "Artifacts loaded.");
           PickleLoadCalled Vectorizer; OpenCalled (VECTORIZER_PATH g);
           PickleLoadCalled Model; OpenCalled (MODEL_PATH g);
           Logged INFO (lit "Loading artifacts..."); LockAcquired ]
         ++ events g.
Proof.
  destruct g as [mp vp [m0|] [v0|] evs];
    unfold _load_artifacts_once, unpickle, both_loaded; cbn;
    intros Hb Hm Hv; try discriminate; rewrite Hm; cbn; rewrite Hv; cbn;
    eexists; repeat split; reflexivity.
Qed.

(** What a run of the loader appends to the record of events never is an
    entry into the inference function. *)
Lemma load_events fs g :
  exists new,
    events (fst (_load_artifacts_once fs g)) = new ++ events g
    /\ Forall (fun ev => forall m, ev <> PredictTextCalled m) new.
Proof.
  loader_cases g fs;
    lazymatch goal with
    | |- exists new, ?l = new ++ ?evs /\ _ =>
        let rec pre l :=
          lazymatch l with
          | evs => constr:(@nil event)
          | ?x :: ?r => let p := pre r in constr:(x :: p)
          end in
        let p := pre l in exists p
    end;
    (split; [reflexivity | repeat constructor; discriminate]).
Qed.

(** When the loader raises, the vectorizer is as it was, and the model is
    as it was or is what the model file held. *)
Lemma load_failure fs g e :
  snd (_load_artifacts_once fs g) = Raises e ->
  both_loaded g = false
  /\ _vectorizer (fst (_load_artifacts_once fs g)) = _vectorizer g
  /\ (_loaded_model (fst (_load_artifacts_once fs g)) = _loaded_model g
      \/ exists m, fs (MODEL_PATH g) = Unpickled m
                   /\ _loaded_model (fst (_load_artifacts_once fs g)) = m).
Proof.
  destruct g as [mp vp [m|] [v|] evs];
    unfold _load_artifacts_once, unpickle, both_loaded; cbn;
    try discriminate;
    destruct (fs mp) as [e1|e1|m1] eqn:Hm; cbn; try (intros _; by auto);
    destruct (fs vp) as [e2|e2|v1] eqn:Hv; cbn; try discriminate;
    intros _; (split; [done|split; [done|right; by exists m1]]).
Qed.

(** When the loader returns without having been on the fast path, both
    globals hold what the files held. *)
Lemma load_returns fs g :
  snd (_load_artifacts_once fs g) = Returns tt ->
  both_loaded g = true
  \/ exists m v, fs (MODEL_PATH g) = Unpickled m
                 /\ fs (VECTORIZER_PATH g) = Unpickled v
                 /\ _loaded_model (fst (_load_artifacts_once fs g)) = m
                 /\ _vectorizer (fst (_load_artifacts_once fs g)) = v.
Proof.
  destruct g as [mp vp [m|] [v|] evs];
    unfold _load_artifacts_once, unpickle, both_loaded; cbn;
    try (intros _; by left);
    destruct (fs mp) as [e1|e1|m1] eqn:Hm; cbn; try discriminate;
    destruct (fs vp) as [e2|e2|v1] eqn:Hv; cbn; try discriminate;
    intros _; right; by exists m1, v1.
Qed.

(** A caller that finds an artifact missing goes through the lock and
    opens the model file. *)
Lemma load_slow_path fs g :
  both_loaded g = false ->
  exists new,
    events (fst (_load_artifacts_once fs g))
    = new ++ [ OpenCalled (MODEL_PATH g);
               Logged INFO (lit "Loading artifacts..."); LockAcquired ]
          ++ events g.
Proof.
  destruct g as [mp vp [m|] [v|] evs];
    unfold _load_artifacts_once, unpickle, both_loaded; cbn;
    try discriminate; intros _;
    destruct (fs mp) as [e1|e1|m1]; cbn;
    try destruct (fs vp) as [e2|e2|v1]; cbn;
    lazymatch goal with
    | |- exists new, ?l = new ++ ?tl =>
        let rec pre l :=
          lazymatch l with
          | tl => constr:(@nil event)
          | ?x :: ?r => let p := pre r in constr:(x :: p)
          end in
        let p := pre l in exists p; reflexivity
    end.
Qed.

End LoaderFacts.

(** ** Claims about one caller *)

Section SequentialClaims.

Context {Features : Type}.
Implicit Types (g : process Features) (fs : filesystem Features).

(** C8. [GET /] answers 200 in every state of the process and leaves the
    process as it was; its JSON body has [model_loaded] true exactly when
    both the model and the vectorizer are set, next to the two resolved
    paths; right after import it reports that nothing is loaded. *)
Theorem health_always_ok fs g (env : gmap pystr pystr) (base_dir : pystr) :
  handle fs GET_root g = (g, health g)
  /\ status (health g) = 200%Z
  /\ json_field (lit "model_loaded") (health g) = Some (JBoolean (both_loaded g))
  /\ (both_loaded g = true
      <-> exists m v, _loaded_model g = Some m /\ _vectorizer g = Some v)
  /\ json_field (lit "model_path") (health g) = Some (JString (MODEL_PATH g))
  /\ json_field (lit "vectorizer_path") (health g)
     = Some (JString (VECTORIZER_PATH g))
  /\ json_field (lit "model_loaded")
       (health (import_module (Features := Features) env base_dir))
     = Some (JBoolean false).
Proof.
  repeat split; try reflexivity.
  - unfold both_loaded.
    destruct (_loaded_model g) as [m|], (_vectorizer g) as [v|];
      try discriminate.
    intros _. by exists m, v.
  - intros (m & v & Hm & Hv). unfold both_loaded. by rewrite Hm, Hv.
Qed.

(** C6. Once both artifacts are set, a call to the loader returns at once
    and leaves the process untouched: no lock event, no file opened, no
    [pickle.load]; a thread that enters the loader then finishes in two
    reads whatever the lock's state.  So after a first load that found both
    files, any number of further calls leaves each artifact deserialized
    exactly once in the process. *)
Theorem ensure_loaded_idempotent fs fs' (env : gmap pystr pystr)
    (base_dir : pystr) (m v : pyobj Features) (n : nat) :
  let g0 := import_module env base_dir in
  fs (MODEL_PATH g0) = Unpickled (Some m) ->
  fs (VECTORIZER_PATH g0) = Unpickled (Some v) ->
  let g1 := fst (_load_artifacts_once fs g0) in
  both_loaded g1 = true
  /\ (forall g, both_loaded g = true ->
        _load_artifacts_once fs' g = (g, Returns tt)
        /\ load_repeatedly fs' n g = g
        /\ forall l, thread_step fs' g l AtFastModel = Some (g, l, AtFastVectorizer)
           /\ thread_step fs' g l AtFastVectorizer
              = Some (g, l, Finished (Returns tt)))
  /\ deserializations Model (load_repeatedly fs' n g1) = 1
  /\ deserializations Vectorizer (load_repeatedly fs' n g1) = 1.
Proof.
  intros g0 Hm Hv g1.
  destruct (load_success fs g0 (Some m) (Some v) eq_refl Hm Hv)
    as (g' & Hload & Hm' & Hv' & Hev).
  assert (Hg1 : g1 = g') by (unfold g1; by rewrite Hload).
  assert (Hb : both_loaded g1 = true).
  { rewrite Hg1. unfold both_loaded. by rewrite Hm', Hv'. }
  split; [exact Hb|]. split.
  - intros g Hg. split; [by apply load_fast_path|].
    split; [by apply load_repeatedly_loaded|].
    intros l. unfold both_loaded in Hg. apply andb_prop in Hg as [H1 H2].
    simpl. by rewrite H1, H2.
  - rewrite (load_repeatedly_loaded fs' n g1 Hb).
    unfold deserializations. rewrite Hg1, Hev. by split.
Qed.

(** C10. Each artifact path is the environment variable's value when that
    is set and not empty, and otherwise the default file name joined to the
    directory of the source file; no request handler, no loader call and no
    thread step changes either path afterwards. *)
Theorem paths_resolved_once (env : gmap pystr pystr) (base_dir : pystr) :
  let g0 := import_module (Features := Features) env base_dir in
  (forall c s, env !! lit "MODEL_PATH" = Some (c :: s) -> MODEL_PATH g0 = c :: s)
  /\ (env !! lit "MODEL_PATH" = None \/ env !! lit "MODEL_PATH" = Some [] ->
      MODEL_PATH g0 = path_join base_dir (lit "basic_classifier.pkl"))
  /\ (forall c s, env !! lit "VECTORIZER_PATH" = Some (c :: s) ->
      VECTORIZER_PATH g0 = c :: s)
  /\ (env !! lit "VECTORIZER_PATH" = None
      \/ env !! lit "VECTORIZER_PATH" = Some [] ->
      VECTORIZER_PATH g0 = path_join base_dir (lit "count_vectorizer.pkl"))
  /\ (forall fs req g,
        MODEL_PATH (fst (handle fs req g)) = MODEL_PATH g
        /\ VECTORIZER_PATH (fst (handle fs req g)) = VECTORIZER_PATH g)
  /\ (forall fs g,
        MODEL_PATH (_eager_load_background fs g) = MODEL_PATH g
        /\ VECTORIZER_PATH (_eager_load_background fs g) = VECTORIZER_PATH g)
  /\ (forall fs g l p g' l' p',
        thread_step fs g l p = Some (g', l', p') ->
        MODEL_PATH g' = MODEL_PATH g /\ VECTORIZER_PATH g' = VECTORIZER_PATH g).
Proof.
  intros g0. unfold g0, import_module, getenv_or.
  split; [intros c s H; simpl MODEL_PATH; by rewrite H|].
  split; [intros [H | H]; simpl MODEL_PATH; by rewrite H|].
  split; [intros c s H; simpl VECTORIZER_PATH; by rewrite H|].
  split; [intros [H | H]; simpl VECTORIZER_PATH; by rewrite H|].
  split; [|split].
  - intros fs req g. destruct req as [| |field|json]; cbn; try done.
    + unfold predict_form.
      destruct (strip (form_or_empty field)) as [|c s]; [done|].
      unfold _predict_text.
      pose proof (load_keeps_paths fs (emit (PredictTextCalled (c :: s)) g))
        as [Hm Hv].
      destruct (_load_artifacts_once fs (emit (PredictTextCalled (c :: s)) g))
        as [g1 [[]|e]]; cbn in Hm, Hv.
      * destruct (call_transform (_vectorizer g1) [c :: s]) as [X|e];
          [destruct (call_predict (_loaded_model g1) X) as [[|val pred]|e]|];
          cbn; try done;
          match goal with
          | |- context [is_FileNotFoundError ?e] =>
              destruct (is_FileNotFoundError e); cbn; done
          end.
      * destruct (is_FileNotFoundError e); cbn; done.
    + unfold predict_json.
      destruct (json_message json) as [[|c s]|e]; [done| |done].
      unfold _predict_text.
      pose proof (load_keeps_paths fs (emit (PredictTextCalled (c :: s)) g))
        as [Hm Hv].
      destruct (_load_artifacts_once fs (emit (PredictTextCalled (c :: s)) g))
        as [g1 [[]|e]]; cbn in Hm, Hv.
      * destruct (call_transform (_vectorizer g1) [c :: s]) as [X|e];
          [destruct (call_predict (_loaded_model g1) X) as [[|val pred]|e]|];
          cbn; try done;
          match goal with
          | |- context [is_FileNotFoundError ?e] =>
              destruct (is_FileNotFoundError e); cbn; done
          end.
      * destruct (is_FileNotFoundError e); cbn; done.
  - intros fs g. unfold _eager_load_background.
    pose proof (load_keeps_paths fs g) as [Hm Hv].
    destruct (_load_artifacts_once fs g) as [g1 [[]|e]]; cbn in *; done.
  - intros fs g l p g' l' p' H.
    destruct p; cbn in H; unfold unpickle in H; cbn in H;
      try (destruct l; try discriminate);
      repeat match type of H with
             | context [match ?fs ?x with _ => _ end] => destruct (fs x)
             end;
      inversion H; subst; cbn; done.
Qed.

End SequentialClaims.

Section LoadStateClaims.

Context {Features : Type}.
Implicit Types (g : process Features) (fs : filesystem Features).

(** The model file fails: the loader raises what the file raised and both
    globals are as they were. *)
Lemma model_file_fails fs g e :
  both_loaded g = false ->
  fs (MODEL_PATH g) = OpenError e \/ fs (MODEL_PATH g) = PickleError e ->
  snd (_load_artifacts_once fs g) = Raises e
  /\ _loaded_model (fst (_load_artifacts_once fs g)) = _loaded_model g
  /\ _vectorizer (fst (_load_artifacts_once fs g)) = _vectorizer g.
Proof.
  destruct g as [mp vp [m|] [v|] evs];
    unfold _load_artifacts_once, unpickle, both_loaded; cbn;
    try discriminate; intros _ [-> | ->]; by cbn.
Qed.

(** The model file holds [m] and the vectorizer file fails: the loader
    raises what the vectorizer file raised, the model global holds [m] and
    is not set back, the vectorizer global is as it was. *)
Lemma model_stays_set fs g m e :
  both_loaded g = false ->
  fs (MODEL_PATH g) = Unpickled m ->
  fs (VECTORIZER_PATH g) = OpenError e
  \/ fs (VECTORIZER_PATH g) = PickleError e ->
  snd (_load_artifacts_once fs g) = Raises e
  /\ _loaded_model (fst (_load_artifacts_once fs g)) = m
  /\ _vectorizer (fst (_load_artifacts_once fs g)) = _vectorizer g.
Proof.
  destruct g as [mp vp [m0|] [v0|] evs];
    unfold _load_artifacts_once, unpickle, both_loaded; cbn;
    try discriminate; intros _ Hm He; rewrite Hm; cbn;
    destruct He as [He | He]; rewrite He; by cbn.
Qed.

(** C1, as amended.  The health check, the demo page and the loader's own
    guards look at the conjunction of the two globals only.  A load that
    starts with the vectorizer unset and raises leaves the vectorizer unset
    and the process reported as not loaded.  When it is the model file
    that fails, the model is as it was.  When the model file holds an
    object and the vectorizer file fails, the model global holds that
    object afterwards: it is not set back.  A load that returns has stored
    what the two files held.  Whenever the process is not reported as
    loaded, the next call to the loader takes the lock and opens the model
    file again. *)
Theorem load_state_seen_as_conjunction fs g :
  _vectorizer g = None ->
  let g' := fst (_load_artifacts_once fs g) in
  let r := snd (_load_artifacts_once fs g) in
  json_field (lit "model_loaded") (health g') = Some (JBoolean (both_loaded g'))
  /\ payload (demo g')
     = page {| Jinja.model_loaded := both_loaded g';
               Jinja.model_path := MODEL_PATH g';
               Jinja.prediction := None;
               Jinja.error := None;
               Jinja.form_message := [] |}
  /\ (forall e, r = Raises e ->
        _vectorizer g' = None /\ both_loaded g' = false
        /\ (_loaded_model g' = _loaded_model g
            \/ exists m, fs (MODEL_PATH g) = Unpickled m /\ _loaded_model g' = m))
  /\ (forall e,
        fs (MODEL_PATH g) = OpenError e \/ fs (MODEL_PATH g) = PickleError e ->
        r = Raises e /\ _loaded_model g' = _loaded_model g
        /\ _vectorizer g' = None)
  /\ (forall m e,
        fs (MODEL_PATH g) = Unpickled m ->
        fs (VECTORIZER_PATH g) = OpenError e
        \/ fs (VECTORIZER_PATH g) = PickleError e ->
        r = Raises e /\ _loaded_model g' = m /\ _vectorizer g' = None
        /\ both_loaded g' = false)
  /\ (r = Returns tt ->
        fs (MODEL_PATH g) = Unpickled (_loaded_model g')
        /\ fs (VECTORIZER_PATH g) = Unpickled (_vectorizer g'))
  /\ (both_loaded g' = false ->
        forall fs', exists new,
          events (fst (_load_artifacts_once fs' g'))
          = new ++ [ OpenCalled (MODEL_PATH g');
                     Logged INFO (lit "Loading artifacts..."); LockAcquired ]
                ++ events g').
Proof.
  intros Hv g' r.
  assert (Hcold : both_loaded g = false).
  { unfold both_loaded. rewrite Hv. apply andb_false_r. }
  split; [reflexivity|]. split; [reflexivity|].
  split; [|split; [|split; [|split]]].
  - intros e Hr. destruct (load_failure fs g e Hr) as (_ & Hvec & Hmodel).
    fold g' in Hvec, Hmodel. rewrite Hv in Hvec.
    split; [exact Hvec|]. split; [|exact Hmodel].
    unfold both_loaded. rewrite Hvec. cbn. apply andb_false_r.
  - intros e He. destruct (model_file_fails fs g e Hcold He) as (Hr & Hm & Hvec).
    fold g' in Hm, Hvec. rewrite Hv in Hvec. by repeat split.
  - intros m e Hm He.
    destruct (model_stays_set fs g m e Hcold Hm He) as (Hr & Hm' & Hvec).
    fold g' in Hm', Hvec. rewrite Hv in Hvec. repeat split; try done.
    unfold both_loaded. rewrite Hvec. apply andb_false_r.
  - intros Hr. destruct (load_returns fs g Hr) as [Hb | (m & v & Hm & Hv' & Hm' & Hv'')].
    + unfold both_loaded in Hb. rewrite Hv in Hb. cbn in Hb.
      rewrite andb_false_r in Hb. discriminate.
    + fold g' in Hm', Hv''. by rewrite Hm', Hv''.
  - intros Hb fs'. apply load_slow_path. exact Hb.
Qed.

(** C5. With both artifacts set, the inference function hands the
    one-element batch to the vectorizer's [transform], the result to the
    classifier's [predict], and looks at the first prediction only.  When
    that prediction has [.item()] the label is [str] of what [.item()]
    gives, whatever [str] of the boxed value itself would be; when it has
    not, the label is [str] of the prediction, and a plain string comes
    back unchanged.  Nothing but the record of the call is added to the
    process. *)
Theorem predict_text_pipeline fs g (message : pystr) (vec clf : pyobj Features)
    (t : list pystr -> outcome Features)
    (p : Features -> outcome (list pyval))
    (X : Features) (val : pyval) (rest : list pyval) :
  _vectorizer g = Some vec ->
  _loaded_model g = Some clf ->
  transform vec = Some t ->
  predict clf = Some p ->
  t [message] = Returns X ->
  p X = Returns (val :: rest) ->
  _predict_text fs message g
  = (emit (PredictTextCalled message) g,
     Returns (py_str (if hasattr_item val then item val else val)))
  /\ (forall s, val = PStr s ->
        snd (_predict_text fs message g) = Returns s)
  /\ (forall rendering inner, val = PBoxed rendering inner ->
        snd (_predict_text fs message g) = Returns (py_str inner))
  /\ (hasattr_item val = false ->
        snd (_predict_text fs message g) = Returns (py_str val)).
Proof.
  intros Hvec Hclf Ht Hp HX Hpred.
  assert (E : _predict_text fs message g
              = (emit (PredictTextCalled message) g,
                 Returns (py_str (if hasattr_item val then item val else val)))).
  { unfold _predict_text.
    rewrite load_fast_path
      by (unfold both_loaded; cbn; by rewrite Hvec, Hclf).
    cbn. rewrite Hvec, Hclf. cbn. rewrite Ht, Hp, HX, Hpred. reflexivity. }
  split; [exact E|]. rewrite E. split; [|split].
  - by intros s ->.
  - by intros rendering inner ->.
  - by intros ->.
Qed.

End LoadStateClaims.

(** C1, the claim as stated fails: with the model file in place and the
    vectorizer file missing, the loader raises and leaves the model set
    while the vectorizer is unset. *)
Lemma failed_load_keeps_model_set :
  let run := _load_artifacts_once Fixtures.fs_model_only Fixtures.fresh in
  (exists e, snd run = Raises e)
  /\ is_not_None (_loaded_model (fst run)) = true
  /\ is_not_None (_vectorizer (fst run)) = false.
Proof. vm_compute. split; [eauto|done]. Qed.

Lemma load_state_seen_as_conjunction_witness :
  let g' := fst (_load_artifacts_once Fixtures.fs_model_only Fixtures.fresh) in
  _loaded_model g' = Some (Fixtures.stub_classifier (PStr (lit "FAKE")))
  /\ _vectorizer g' = None /\ both_loaded g' = false
  /\ health g' = {| status := 200;
                    payload := JsonBody
                      [ (lit "status", JString (lit "ok"));
                        (lit "model_loaded", JBoolean false);
                        (lit "model_path", JString Fixtures.model_pkl);
                        (lit "vectorizer_path", JString Fixtures.vectorizer_pkl) ] |}.
Proof.
  pose proof (load_state_seen_as_conjunction Fixtures.fs_model_only
                Fixtures.fresh eq_refl) as (_ & _ & _ & _ & Hkept & _).
  destruct (Hkept (Some (Fixtures.stub_classifier (PStr (lit "FAKE"))))
              (Fixtures.not_found Fixtures.vectorizer_pkl)
              eq_refl (or_introl eq_refl))
    as (_ & Hmodel & Hvec & Hb).
  split; [exact Hmodel|]. split; [exact Hvec|]. split; [exact Hb|].
  vm_compute. reflexivity.
Defined.

Lemma predict_text_pipeline_witness :
  snd (_predict_text
         (Fixtures.fs_with (Fixtures.stub_classifier (PStr (lit "FAKE")))
                           Fixtures.stub_vectorizer)
         (lit "sample text")
         (fst (_load_artifacts_once
                 (Fixtures.fs_with (Fixtures.stub_classifier (PStr (lit "FAKE")))
                                   Fixtures.stub_vectorizer)
                 Fixtures.fresh)))
  = Returns (lit "FAKE")
  /\ snd (_predict_text
            (Fixtures.fs_with (Fixtures.stub_classifier Fixtures.float32_tenth)
                              Fixtures.stub_vectorizer)
            (lit "sample text")
            (fst (_load_artifacts_once
                    (Fixtures.fs_with
                       (Fixtures.stub_classifier Fixtures.float32_tenth)
                       Fixtures.stub_vectorizer)
                    Fixtures.fresh)))
     = Returns (lit "0.10000000149011612").
Proof.
  split.
  - refine (proj1 (proj2 (predict_text_pipeline _ _ (lit "sample text")
              Fixtures.stub_vectorizer
              (Fixtures.stub_classifier (PStr (lit "FAKE")))
              (fun batch => Returns batch)
              (fun X => Returns (map (fun _ => PStr (lit "FAKE")) X))
              [lit "sample text"] (PStr (lit "FAKE")) []
              _ _ _ _ _ _)) (lit "FAKE") eq_refl);
      reflexivity.
  - refine (proj1 (proj2 (proj2 (predict_text_pipeline _ _ (lit "sample text")
              Fixtures.stub_vectorizer
              (Fixtures.stub_classifier Fixtures.float32_tenth)
              (fun batch => Returns batch)
              (fun X => Returns (map (fun _ => Fixtures.float32_tenth) X))
              [lit "sample text"] Fixtures.float32_tenth []
              _ _ _ _ _ _))) (lit "0.1") _ eq_refl);
      reflexivity.
Defined.

Lemma ensure_loaded_idempotent_witness :
  let fs := Fixtures.fs_with (Fixtures.stub_classifier (PStr (lit "FAKE")))
                             Fixtures.stub_vectorizer in
  let g1 := fst (_load_artifacts_once fs Fixtures.fresh) in
  deserializations Model (load_repeatedly Fixtures.fs_empty 5 g1) = 1
  /\ deserializations Vectorizer (load_repeatedly Fixtures.fs_empty 5 g1) = 1.
Proof.
  exact (proj2 (proj2 (ensure_loaded_idempotent
           (Fixtures.fs_with (Fixtures.stub_classifier (PStr (lit "FAKE")))
                             Fixtures.stub_vectorizer)
           Fixtures.fs_empty ∅ (lit "/srv/app")
           (Fixtures.stub_classifier (PStr (lit "FAKE")))
           Fixtures.stub_vectorizer 5 eq_refl eq_refl))).
Defined.

(** ** Requests *)

Section RequestFacts.

Context {Features : Type}.
Implicit Types (g : process Features) (fs : filesystem Features).

Lemma predict_text_state fs (message : pystr) g :
  fst (_predict_text fs message g)
  = fst (_load_artifacts_once fs (emit (PredictTextCalled message) g)).
Proof.
  unfold _predict_text.
  destruct (_load_artifacts_once fs (emit (PredictTextCalled message) g))
    as [g1 [[]|e]]; [|done].
  destruct (call_transform (_vectorizer g1) [message]) as [X|e]; [|done].
  by destruct (call_predict (_loaded_model g1) X) as [[|val pred]|e].
Qed.

(** The loader's exception is the inference function's exception. *)
Lemma predict_text_load_failure fs (message : pystr) g e :
  snd (_load_artifacts_once fs g) = Raises e ->
  snd (_predict_text fs message g) = Raises e.
Proof.
  intros H. unfold _predict_text.
  destruct (load_after_emit fs (PredictTextCalled message) g) as (Hs & _).
  rewrite H in Hs.
  destruct (_load_artifacts_once fs (emit (PredictTextCalled message) g))
    as [g1 r]. cbn in Hs. by subst r.
Qed.

(** A run of the inference function records its own entry and, after it,
    no other entry. *)
Lemma predict_text_events fs (message : pystr) g :
  exists new,
    events (fst (_predict_text fs message g))
    = new ++ PredictTextCalled message :: events g
    /\ Forall (fun ev => forall m, ev <> PredictTextCalled m) new.
Proof.
  rewrite predict_text_state.
  destruct (load_events fs (emit (PredictTextCalled message) g))
    as (new & E & Hnew).
  exists new. by split.
Qed.

Lemma in_new_events (new : list event) (message m : pystr) :
  Forall (fun ev => forall m, ev <> PredictTextCalled m) new ->
  In (PredictTextCalled m) (new ++ [PredictTextCalled message]) ->
  m = message.
Proof.
  intros Hnew Hin. apply in_app_or in Hin as [Hin | [Hin | []]].
  - rewrite Forall_forall in Hnew.
    apply list_elem_of_In in Hin. by destruct (Hnew _ Hin m).
  - by inversion Hin.
Qed.

(** Substrings of a concatenation. *)
Lemma startswith_app (b c : pystr) : startswith (b ++ c) b = true.
Proof.
  induction b as [|x b IH]; [by destruct c|].
  cbn. by rewrite N.eqb_refl.
Qed.

Lemma contains_unfold (h b : pystr) :
  contains h b
  = startswith h b || match h with [] => false | _ :: r => contains r b end.
Proof. by destruct h. Qed.

Lemma contains_here (b c : pystr) : contains (b ++ c) b = true.
Proof. rewrite contains_unfold. by rewrite startswith_app. Qed.

Lemma contains_app_r (a t b : pystr) :
  contains t b = true -> contains (a ++ t) b = true.
Proof.
  intros H. induction a as [|x a IH]; [exact H|].
  rewrite contains_unfold. cbn [app]. rewrite IH. apply orb_true_r.
Qed.

(** Every rendering of the demo page shows the model path, escaped, in its
    footer. *)
Lemma page_shows_model_path (ctx : Jinja.context) :
  contains (Jinja.render DEMO_HTML ctx) (Jinja.escape (Jinja.model_path ctx))
  = true.
Proof.
  unfold Jinja.render, DEMO_HTML.
  cbv [map concat].
  repeat (first [ apply contains_here | apply contains_app_r ]).
Qed.

End RequestFacts.

Section RequestClaims.

Context {Features : Type}.
Implicit Types (g : process Features) (fs : filesystem Features).

(** C3, as amended.  For a request with a non-empty message, when the load
    attempt raises [FileNotFoundError] both prediction routes answer 503
    with the generic artifacts-not-found message; when it raises anything
    else (a file that cannot be read, a file that is not a pickle) both
    answer 500 with the generic inference-failed message.  [GET /] answers
    200 afterwards all the same. *)
Theorem load_failure_status fs g (e : exn) (json : json_request)
    (field : option pystr) (c c' : N) (s s' : pystr) :
  snd (_load_artifacts_once fs g) = Raises e ->
  json_message json = Returns (c :: s) ->
  strip (form_or_empty field) = c' :: s' ->
  snd (predict_json fs json g)
  = (if is_FileNotFoundError e then error_json 503 artifacts_not_found
     else error_json 500 inference_failed)
  /\ status (snd (predict_form fs field g))
     = (if is_FileNotFoundError e then 503 else 500)%Z
  /\ (exists loaded,
        payload (snd (predict_form fs field g))
        = page {| Jinja.model_loaded := loaded;
                  Jinja.model_path := MODEL_PATH g;
                  Jinja.prediction := None;
                  Jinja.error :=
                    Some (if is_FileNotFoundError e then artifacts_not_found
                          else inference_failed);
                  Jinja.form_message := form_or_empty field |})
  /\ status (snd (handle fs GET_root (fst (predict_json fs json g)))) = 200%Z
  /\ status (snd (handle fs GET_root (fst (predict_form fs field g)))) = 200%Z.
Proof.
  intros Hload Hjson Hform.
  pose proof (predict_text_load_failure fs (c :: s) g e Hload) as Hj.
  pose proof (predict_text_load_failure fs (c' :: s') g e Hload) as Hf.
  pose proof (predict_text_state fs (c' :: s') g) as Hst.
  destruct (load_after_emit fs (PredictTextCalled (c' :: s')) g)
    as (_ & _ & _ & Hpath).
  rewrite <- Hst in Hpath.
  unfold predict_json, predict_form. rewrite Hjson, Hform.
  destruct (_predict_text fs (c :: s) g) as [gj rj].
  destruct (_predict_text fs (c' :: s') g) as [gf rf].
  cbn in Hj, Hf, Hpath. subst rj rf.
  destruct (is_FileNotFoundError e); cbn; rewrite ?Hpath;
    (split; [done|split; [done|split; [by eexists|done]]]).
Qed.

(** C4, as amended.  An error answer of [POST /predict] is one of two fixed
    JSON objects, or the framework's own page.  An error answer of
    [POST /predict-form] is the demo page rendered from a load flag, the
    model path, one of the two fixed messages and the submitted text:
    nothing of the exception and nothing of the vectorizer path goes into
    it, but the model path does, in the page's footer. *)
Theorem error_bodies_are_generic fs g (json : json_request)
    (field : option pystr) :
  let rj := snd (predict_json fs json g) in
  let rf := snd (predict_form fs field g) in
  (status rj = 503%Z \/ status rj = 500%Z ->
     rj = error_json 503 artifacts_not_found
     \/ rj = error_json 500 inference_failed
     \/ rj = {| status := 500; payload := InternalServerErrorPage |})
  /\ (status rf = 503%Z \/ status rf = 500%Z ->
        (exists loaded msg,
           (msg = artifacts_not_found \/ msg = inference_failed)
           /\ payload rf
              = page {| Jinja.model_loaded := loaded;
                        Jinja.model_path := MODEL_PATH g;
                        Jinja.prediction := None;
                        Jinja.error := Some msg;
                        Jinja.form_message := form_or_empty field |})
        /\ contains (html_of rf) (Jinja.escape (MODEL_PATH g)) = true).
Proof.
  intros rj rf. split.
  - unfold rj, predict_json.
    destruct (json_message json) as [[|c s]|e]; cbn.
    + intros [|]; discriminate.
    + destruct (_predict_text fs (c :: s) g) as [g1 [label|e]]; cbn.
      * intros [|]; discriminate.
      * destruct (is_FileNotFoundError e); cbn; auto.
    + auto.
  - unfold rf, predict_form.
    destruct (strip (form_or_empty field)) as [|c s] eqn:Hmsg; cbn.
    + intros [|]; discriminate.
    + pose proof (predict_text_state fs (c :: s) g) as Hst.
      destruct (load_after_emit fs (PredictTextCalled (c :: s)) g)
        as (_ & _ & _ & Hpath).
      rewrite <- Hst in Hpath.
      destruct (_predict_text fs (c :: s) g) as [g1 [label|e]]; cbn in *.
      * intros [|]; discriminate.
      * destruct (is_FileNotFoundError e); cbn; intros _; rewrite Hpath;
          (split; [eexists _, _; split; [|reflexivity]; auto|]);
          unfold html_of, page; cbn [payload];
          apply (page_shows_model_path
                   {| Jinja.model_path := MODEL_PATH g |}).
Qed.

(** C7. The validation of [POST /predict] misses a case.  A JSON body
    that is truthy and not an object (a non-empty array or string, a
    non-zero number, [true]) has no [message] field, yet the answer is not
    the 400 of a missing message: line 194 calls [get] on it, the exception
    leaves the handler, and the framework answers 500 with its own page.
    The falsy bodies of the same kinds (an empty array, an empty string,
    zero, [false]) are replaced by the empty dict on line 193 and do get
    the 400. *)
Theorem non_object_body_is_not_validated fs g :
  predict_json fs (JsonOther true) g
  = (emit (Logged ERROR (lit "Exception on /predict [POST]")) g,
     {| status := 500; payload := InternalServerErrorPage |})
  /\ status (snd (predict_json fs (JsonOther true) g)) <> 400%Z
  /\ predict_json fs (JsonOther false) g = (g, error_json 400 required_message).
Proof. by repeat split. Qed.

(** What the validation does reject.  [POST /predict] with no JSON body,
    with a JSON object that has no [message], or with one whose [message]
    strips to the empty string, answers 400 with the one-field error object
    and does nothing else; so does every request whose extracted message is
    empty, and so does [POST /predict-form] for a blank field.  Every entry
    into the inference function that either prediction route makes carries
    a message that is not empty and not white space only. *)
Theorem blank_message_is_rejected fs g :
  predict_json fs NoJson g = (g, error_json 400 required_message)
  /\ (forall json,
        json_message json = Returns [] ->
        predict_json fs json g = (g, error_json 400 required_message))
  /\ (forall d : gmap pystr pyval,
        d !! lit "message" = None ->
        predict_json fs (JsonObject d) g = (g, error_json 400 required_message))
  /\ (forall (d : gmap pystr pyval) v,
        d !! lit "message" = Some v -> strip (py_str v) = [] ->
        predict_json fs (JsonObject d) g = (g, error_json 400 required_message))
  /\ (forall field,
        strip (form_or_empty field) = [] ->
        fst (predict_form fs field g) = g
        /\ status (snd (predict_form fs field g)) = 400%Z)
  /\ (forall json, exists new,
        events (fst (predict_json fs json g)) = new ++ events g
        /\ forall m, In (PredictTextCalled m) new -> m <> [] /\ blank m = false)
  /\ (forall field, exists new,
        events (fst (predict_form fs field g)) = new ++ events g
        /\ forall m, In (PredictTextCalled m) new -> m <> [] /\ blank m = false).
Proof.
  assert (Hnb : forall x c s, strip x = c :: s ->
                  c :: s <> [] /\ blank (c :: s) = false).
  { intros x c s E. split; [done|]. rewrite <- E. apply strip_not_blank.
    by rewrite E. }
  assert (Hev : forall (message : pystr) x c s,
            message = c :: s -> strip x = c :: s ->
            forall (extra : list event),
              Forall (fun ev => forall m, ev <> PredictTextCalled m) extra ->
              exists new,
                extra ++ events (fst (_predict_text fs message g))
                = new ++ events g
                /\ forall m, In (PredictTextCalled m) new ->
                             m <> [] /\ blank m = false).
  { intros message x c s -> E extra Hextra.
    destruct (predict_text_events fs (c :: s) g) as (new & Hnew & Hfa).
    exists (extra ++ new ++ [PredictTextCalled (c :: s)]). split.
    - rewrite Hnew. by rewrite <- !app_assoc.
    - intros m Hin. rewrite app_assoc in Hin.
      assert (m = c :: s) as ->.
      { apply (in_new_events (extra ++ new) (c :: s) m); [|exact Hin].
        apply Forall_app. by split. }
      by apply (Hnb x). }
  split; [reflexivity|].
  split; [intros json Hj; unfold predict_json; by rewrite Hj|].
  split; [intros d Hd; unfold predict_json, json_message; by rewrite Hd|].
  split; [intros d v Hd Hs; unfold predict_json, json_message; rewrite Hd;
          cbn [default from_option id]; by rewrite Hs|].
  split; [intros field Hs; unfold predict_form; by rewrite Hs|].
  split.
  - intros json. unfold predict_json.
    destruct (json_message json) as [[|c s]|e] eqn:Hjson;
      [by exists []| |].
    2:{ eexists [_]. split; [reflexivity|]. by intros m [H | []]. }
    assert (Hx : exists x, strip x = c :: s).
    { destruct json as [|d|[]]; cbn in Hjson; inversion Hjson; eauto. }
    destruct Hx as [x Hx].
    pose proof (Hev (c :: s) x c s eq_refl Hx) as H.
    destruct (_predict_text fs (c :: s) g) as [g1 [label|e]]; cbn in *.
    + exact (H [] (List.Forall_nil _)).
    + destruct (is_FileNotFoundError e); cbn.
      * exact (H [] (List.Forall_nil _)).
      * apply (H [_]). by repeat constructor.
  - intros field. unfold predict_form.
    destruct (strip (form_or_empty field)) as [|c s] eqn:Hx; [by exists []|].
    pose proof (Hev (c :: s) _ c s eq_refl Hx) as H.
    destruct (_predict_text fs (c :: s) g) as [g1 [label|e]]; cbn in *.
    + exact (H [] (List.Forall_nil _)).
    + destruct (is_FileNotFoundError e); cbn.
      * exact (H [] (List.Forall_nil _)).
      * apply (H [_]). by repeat constructor.
Qed.

(** C9. A [message] that is any JSON value other than a string ([null],
    a boolean, an integer, a float, an array, an object) is not rejected:
    [str] turns it into text ([null] into the four characters [None],
    booleans into [True] and [False], an array into its bracketed text),
    that text is never empty and is left alone by [strip], so it passes the
    emptiness check, the inference function is entered with it, and the
    answer is never the 400 of a missing message; when inference returns a
    label the answer is 200 with it. *)
Theorem non_string_message_is_coerced fs g (d : gmap pystr pyval) (v : pyval) :
  d !! lit "message" = Some v ->
  is_json_non_string v = true ->
  json_message (JsonObject d) = Returns (py_str v)
  /\ py_str v <> []
  /\ py_str PNone = [78; 111; 110; 101]%N
  /\ py_str (PBool true) = lit "True"
  /\ py_str (PBool false) = lit "False"
  /\ status (snd (predict_json fs (JsonObject d) g)) <> 400%Z
  /\ In (PredictTextCalled (py_str v))
        (events (fst (predict_json fs (JsonObject d) g)))
  /\ (forall label,
        snd (_predict_text fs (py_str v) g) = Returns label ->
        snd (predict_json fs (JsonObject d) g)
        = {| status := 200;
             payload := JsonBody [(lit "label", JString label)] |}).
Proof.
  intros Hd Hv.
  destruct (non_string_text v Hv) as [Hs Hne].
  assert (Hjson : json_message (JsonObject d) = Returns (py_str v)).
  { unfold json_message. rewrite Hd. cbn [default from_option id]. by rewrite Hs. }
  split; [exact Hjson|]. split; [exact Hne|]. split; [reflexivity|].
  split; [reflexivity|]. split; [reflexivity|].
  unfold predict_json. rewrite Hjson.
  destruct (py_str v) as [|c s] eqn:Hstr; [done|].
  destruct (predict_text_events fs (c :: s) g) as (new & Hnew & _).
  destruct (_predict_text fs (c :: s) g) as [g1 [label|e]]; cbn in *.
  - split; [done|]. split; [|by intros ? [= ->]].
    rewrite Hnew. apply in_or_app. right. by left.
  - destruct (is_FileNotFoundError e); cbn;
      (split; [done|split; [|done]]).
    + rewrite Hnew. apply in_or_app. right. by left.
    + right. rewrite Hnew. apply in_or_app. right. by left.
Qed.

End RequestClaims.

(** ** Threads *)

Section ThreadFacts.

Context {Features : Type}.
Variable fs : filesystem Features.
Variables mp vp : pystr.
Variables m v : pyobj Features.
Variables nm nv : nat.
Hypothesis model_file : fs mp = Unpickled (Some m).
Hypothesis vectorizer_file : fs vp = Unpickled (Some v).

Implicit Types (g : process Features) (s : system Features) (p : pc Features).

Local Abbreviation inv := (invariant mp vp m v nm nv).
Local Abbreviation cold := (cold nm nv).
Local Abbreviation loaded := (loaded m v nm nv).
Local Abbreviation thread_ok := (thread_ok m v nm nv).

Lemma cold_not_loaded g : cold g -> loaded g -> False.
Proof. intros (H & _) (H' & _). congruence. Qed.

Lemma loaded_emit g ev :
  is_pickle_load Model ev = false -> is_pickle_load Vectorizer ev = false ->
  loaded g -> loaded (emit ev g).
Proof.
  intros H1 H2 (Hm & Hv & Hnm & Hnv). unfold loaded, deserializations in *.
  cbn. by rewrite H1, H2.
Qed.

Lemma cold_emit g ev :
  is_pickle_load Model ev = false -> is_pickle_load Vectorizer ev = false ->
  cold g -> cold (emit ev g).
Proof.
  intros H1 H2 (Hm & Hv & Hnm & Hnv). unfold cold, deserializations in *.
  cbn. by rewrite H1, H2.
Qed.

Lemma holder_is_locked s i p :
  inv s -> threads s !! i = Some p -> holds_lock p = true -> locked s = true.
Proof.
  intros I Hi Hp. destruct (locked s) eqn:E; [done|].
  rewrite (inv_unlocked _ _ _ _ _ _ _ I E i p Hi) in Hp. done.
Qed.

(** With the vectorizer set, everything is set. *)
Lemma vectorizer_set_loaded s :
  inv s -> is_not_None (_vectorizer (proc s)) = true -> loaded (proc s).
Proof.
  intros I Hset.
  assert (Hn : _vectorizer (proc s) = None -> loaded (proc s)).
  { intros Hv. rewrite Hv in Hset. done. }
  assert (Hc : cold (proc s) \/ loaded (proc s) -> loaded (proc s)).
  { intros [(_ & Hv & _) | H]; by auto. }
  destruct (locked s) eqn:E.
  - destruct (inv_locked _ _ _ _ _ _ _ I E) as (i & p & Hi & Hp).
    pose proof (inv_threads _ _ _ _ _ _ _ I i p Hi) as Hok.
    destruct p as [| | | | | |o| |o|[e|]|r]; cbn in Hp, Hok;
      try discriminate; try done; try (by apply Hc; auto).
    + destruct Hok as (_ & _ & Hv & _). by apply Hn.
    + destruct Hok as (_ & Hv & _). by apply Hn.
    + destruct Hok as (_ & _ & Hv & _). by apply Hn.
  - apply Hc. by apply (inv_at_rest _ _ _ _ _ _ _ I E).
Qed.

(** One thread moves from [p] to [p']: what has to be checked. *)
Lemma invariant_update s i p g' (l' : bool) p' :
  inv s -> threads s !! i = Some p ->
  MODEL_PATH g' = mp -> VECTORIZER_PATH g' = vp ->
  l' = (if holds_lock p' then true
        else if holds_lock p then false else locked s) ->
  (holds_lock p' = true -> holds_lock p = false -> locked s = false) ->
  thread_ok g' p' ->
  (g' = proc s
   \/ (holds_lock p = true \/ locked s = false)
      /\ (loaded (proc s) -> loaded g')) ->
  (l' = false -> cold g' \/ loaded g') ->
  inv {| proc := g'; locked := l'; threads := <[i := p']> (threads s) |}.
Proof.
  intros I Hi Hmp Hvp Hl Hacq Hok Hothers Hrest.
  assert (Hlen : i < length (threads s)) by (by eapply lookup_lt_Some).
  assert (Hnon : holds_lock p = true \/ locked s = false ->
                 forall j pj, j <> i -> threads s !! j = Some pj ->
                              holds_lock pj = false).
  { intros [Hp | Hu] j pj Hji Hj.
    - destruct (holds_lock pj) eqn:E; [|done].
      destruct Hji. by apply (inv_mutex _ _ _ _ _ _ _ I j i pj p).
    - by apply (inv_unlocked _ _ _ _ _ _ _ I Hu j pj). }
  constructor; cbn.
  - exact Hmp.
  - exact Hvp.
  - intros a b pa pb Ha Hb Hpa Hpb.
    apply list_lookup_insert_Some in Ha as [(<- & -> & _) | (Ha1 & Ha)];
      apply list_lookup_insert_Some in Hb as [(<- & -> & _) | (Hb1 & Hb)];
      try done.
    + destruct (holds_lock p) eqn:Hp.
      * by apply (inv_mutex _ _ _ _ _ _ _ I i b p pb).
      * rewrite (Hnon (or_intror (Hacq Hpa eq_refl)) b pb) in Hpb; by auto.
    + destruct (holds_lock p) eqn:Hp.
      * by apply (inv_mutex _ _ _ _ _ _ _ I a i pa p).
      * rewrite (Hnon (or_intror (Hacq Hpb eq_refl)) a pa) in Hpa; by auto.
    + by apply (inv_mutex _ _ _ _ _ _ _ I a b pa pb).
  - intros Hl' j pj Hj. subst l'.
    destruct (holds_lock p') eqn:Hp'; [done|].
    apply list_lookup_insert_Some in Hj as [(<- & -> & _) | (Hji & Hj)]; [done|].
    apply (Hnon) with (j := j); [|by auto|done].
    destruct (holds_lock p); by auto.
  - intros Hl'. subst l'.
    destruct (holds_lock p') eqn:Hp'.
    + exists i, p'. split; [by apply list_lookup_insert_eq|done].
    + destruct (holds_lock p) eqn:Hp; [done|].
      destruct (inv_locked _ _ _ _ _ _ _ I Hl') as (k & pk & Hk & Hpk).
      exists k, pk. split; [|done].
      rewrite list_lookup_insert_ne; [done|].
      intros ->. rewrite Hi in Hk. injection Hk as ->. congruence.
  - exact Hrest.
  - intros j pj Hj.
    apply list_lookup_insert_Some in Hj as [(<- & -> & _) | (Hji & Hj)]; [done|].
    pose proof (inv_threads _ _ _ _ _ _ _ I j pj Hj) as Hj_ok.
    destruct Hothers as [-> | (Hwho & Hloaded)]; [done|].
    pose proof (Hnon Hwho j pj (not_eq_sym Hji) Hj) as Hpj.
    destruct pj as [| | | | | |o| |o|[e|]|r]; cbn in Hpj |- *;
      try discriminate; try done.
    destruct Hj_ok as [-> Hj_ok]. by auto.
Qed.

(** A thread that cannot move has finished or waits for the lock. *)
Lemma thread_step_blocked g (l : bool) p :
  thread_step fs g l p = None ->
  is_finished p = true \/ p = AtAcquire /\ l = true.
Proof.
  destruct p; cbn; try discriminate; auto.
  - destruct l; [by auto | discriminate].
  - unfold unpickle; cbn. by destruct (fs (MODEL_PATH g)).
  - unfold unpickle; cbn. by destruct (fs (VECTORIZER_PATH g)).
Qed.

(** Every step brings the thread that takes it closer to its end. *)
Lemma thread_step_decreases g (l : bool) p g' (l' : bool) p' :
  thread_step fs g l p = Some (g', l', p') -> steps_left p' < steps_left p.
Proof.
  destruct p; cbn; unfold unpickle; cbn;
    repeat match goal with
           | |- context [match ?x with _ => _ end] => destruct x
           end;
    intros [= <- <- <-] || discriminate; cbn; lia.
Qed.

Lemma total_steps_left_insert (ts : list (pc Features)) i p p' :
  ts !! i = Some p ->
  total_steps_left (<[i := p']> ts) + steps_left p
  = total_steps_left ts + steps_left p'.
Proof.
  revert i. induction ts as [|x ts IH]; intros [|i] H; try done.
  - injection H as ->. cbn. lia.
  - change (<[S i := p']> (x :: ts)) with (x :: <[i := p']> ts).
    cbn [total_steps_left]. specialize (IH i H). lia.
Qed.

Lemma total_steps_left_replicate n :
  total_steps_left (replicate n (@AtFastModel Features)) = 10 * n.
Proof. induction n as [|n IH]; cbn [replicate total_steps_left steps_left]; lia. Qed.

End ThreadFacts.

Section ThreadInvariant.

Context {Features : Type}.
Variable fs : filesystem Features.
Variables mp vp : pystr.
Variables m v : pyobj Features.
Variables nm nv : nat.
Hypothesis model_file : fs mp = Unpickled (Some m).
Hypothesis vectorizer_file : fs vp = Unpickled (Some v).

Implicit Types (g : process Features) (s : system Features) (p : pc Features).

Local Abbreviation inv := (invariant mp vp m v nm nv).
Local Abbreviation cold := (cold nm nv).
Local Abbreviation loaded := (loaded m v nm nv).
Local Abbreviation thread_ok := (thread_ok m v nm nv).

(** The invariant holds at a cold start. *)
Lemma invariant_cold_start g n :
  MODEL_PATH g = mp -> VECTORIZER_PATH g = vp -> cold g ->
  inv (cold_start g n).
Proof.
  intros Hmp Hvp Hc.
  assert (Hall : forall i p,
             replicate n (@AtFastModel Features) !! i = Some p -> p = AtFastModel).
  { intros i p H. by apply lookup_replicate in H as [-> _]. }
  constructor; cbn; try done.
  - intros i j pi pj Hi _ Hpi _. by rewrite (Hall i pi Hi) in Hpi.
  - intros _ i p Hi. by rewrite (Hall i p Hi).
  - by left.
  - intros i p Hi. by rewrite (Hall i p Hi).
Qed.

(** Every step keeps the invariant. *)
Lemma step_keeps_invariant s i s' :
  inv s -> step fs i s = Some s' -> inv s'.
Proof using model_file vectorizer_file.
  intros I Hstep. unfold step in Hstep.
  destruct (threads s !! i) as [p|] eqn:Hi; [|done].
  destruct (thread_step fs (proc s) (locked s) p) as [[[g' l'] p']|] eqn:Hts;
    [|done].
  injection Hstep as <-.
  pose proof (inv_threads _ _ _ _ _ _ _ I i p Hi) as Hok.
  pose proof (inv_model_path _ _ _ _ _ _ _ I) as Hmp.
  pose proof (inv_vectorizer_path _ _ _ _ _ _ _ I) as Hvp.
  pose proof (inv_at_rest _ _ _ _ _ _ _ I) as Hrest.
  pose proof (holder_is_locked mp vp m v nm nv s i p I Hi) as Hheld.
  pose proof (vectorizer_set_loaded mp vp m v nm nv s I) as Hvec.
  destruct p as [| | | | | |o| |o|[e|]|r]; cbn in Hts, Hok, Hheld.
  - (* line 33, first read *)
    injection Hts as <- <- <-.
    apply (invariant_update mp vp m v nm nv s i AtFastModel); try done;
      destruct (is_not_None (_loaded_model (proc s))); cbn; by auto.
  - (* line 33, second read *)
    injection Hts as <- <- <-.
    apply (invariant_update mp vp m v nm nv s i AtFastVectorizer); try done;
      destruct (is_not_None (_vectorizer (proc s))); cbn; by auto.
  - (* the lock is taken *)
    destruct (locked s) eqn:Hl; [done|]. injection Hts as <- <- <-.
    apply (invariant_update mp vp m v nm nv s i AtAcquire); try done; cbn.
    + destruct (Hrest eq_refl); [left; by apply cold_emit
                                |right; by apply loaded_emit].
    + right. split; [by right|]. intros H. by apply loaded_emit.
  - (* line 36, first read *)
    injection Hts as <- <- <-. rewrite (Hheld eq_refl).
    apply (invariant_update mp vp m v nm nv s i AtCheckModel); try done;
      destruct (is_None (_loaded_model (proc s))) eqn:E; cbn; try by auto.
    destruct Hok as [Hc | (Hm & _)]; [done|].
    unfold is_None in E. by rewrite Hm in E.
  - (* line 36, second read *)
    injection Hts as <- <- <-. rewrite (Hheld eq_refl).
    apply (invariant_update mp vp m v nm nv s i AtCheckVectorizer); try done;
      destruct (is_None (_vectorizer (proc s))) eqn:E; cbn; try by auto.
    + destruct Hok as [Hc | (_ & Hv & _)]; [done|].
      unfold is_None in E. by rewrite Hv in E.
    + destruct Hok as [(_ & Hv & _) | Hl]; [|done].
      unfold is_None in E. by rewrite Hv in E.
  - (* the model file is read *)
    unfold unpickle in Hts. cbn in Hts. rewrite Hmp, model_file in Hts.
    injection Hts as <- <- <-. rewrite (Hheld eq_refl).
    destruct Hok as (Hm0 & Hv0 & Hnm & Hnv).
    apply (invariant_update mp vp m v nm nv s i AtOpenModel); try done; cbn.
    + unfold deserializations in *. cbn. by rewrite Hnm, Hnv.
    + right. split; [by left|]. intros (Hm1 & _). congruence.
  - (* the model is stored *)
    injection Hts as <- <- <-. rewrite (Hheld eq_refl).
    destruct Hok as (-> & Hm0 & Hv0 & Hnm & Hnv).
    apply (invariant_update mp vp m v nm nv s i (AtStoreModel (Some m)));
      try done; cbn.
    right. split; [by left|]. intros (_ & Hv1 & _). congruence.
  - (* the vectorizer file is read *)
    unfold unpickle in Hts. cbn in Hts. rewrite Hvp, vectorizer_file in Hts.
    injection Hts as <- <- <-. rewrite (Hheld eq_refl).
    destruct Hok as (Hm0 & Hv0 & Hnm & Hnv).
    apply (invariant_update mp vp m v nm nv s i AtOpenVectorizer);
      try done; cbn.
    + unfold deserializations in *. cbn. by rewrite Hnm, Hnv.
    + right. split; [by left|]. intros (_ & Hv1 & _). congruence.
  - (* the vectorizer is stored *)
    injection Hts as <- <- <-. rewrite (Hheld eq_refl).
    destruct Hok as (-> & Hm0 & Hv0 & Hnm & Hnv).
    apply (invariant_update mp vp m v nm nv s i (AtStoreVectorizer (Some v)));
      try done; cbn.
    right. split; [by left|]. intros (_ & Hv1 & _). congruence.
  - done.
  - (* the lock is given back *)
    injection Hts as <- <- <-.
    apply (invariant_update mp vp m v nm nv s i (AtRelease None));
      try done; cbn.
    + right. split; [by left|]. intros H. by apply loaded_emit.
    + intros _. right. by apply loaded_emit.
  - done.
Qed.

End ThreadInvariant.

Section Schedules.

Context {Features : Type}.
Implicit Types (g : process Features) (s : system Features) (p : pc Features)
  (fs : filesystem Features).

Lemma run_keeps_invariant fs mp vp (m v : pyobj Features) nm nv schedule s s' :
  fs mp = Unpickled (Some m) -> fs vp = Unpickled (Some v) ->
  invariant mp vp m v nm nv s ->
  run fs schedule s = Some s' ->
  invariant mp vp m v nm nv s'.
Proof.
  intros Hm Hv. revert s.
  induction schedule as [|i rest IH]; intros s I Hrun; cbn in Hrun.
  - by injection Hrun as <-.
  - destruct (step fs i s) as [s1|] eqn:Hstep; [|done].
    apply (IH s1); [|done].
    by apply (step_keeps_invariant fs mp vp m v nm nv Hm Hv s i).
Qed.

(** A schedule is never longer than what the threads had left to do. *)
Lemma run_uses_steps fs schedule s s' :
  run fs schedule s = Some s' ->
  length schedule + total_steps_left (threads s') <= total_steps_left (threads s)
  /\ length (threads s') = length (threads s).
Proof.
  revert s. induction schedule as [|i rest IH]; intros s Hrun; cbn in Hrun.
  - injection Hrun as <-. cbn. lia.
  - destruct (step fs i s) as [s1|] eqn:Hstep; [|done].
    destruct (IH s1 Hrun) as [IH1 IH2].
    unfold step in Hstep.
    destruct (threads s !! i) as [p|] eqn:Hi; [|done].
    destruct (thread_step fs (proc s) (locked s) p) as [[[g' l'] p']|] eqn:Hts;
      [|done].
    injection Hstep as <-. cbn in IH1, IH2.
    pose proof (thread_step_decreases fs _ _ _ _ _ _ Hts) as Hlt.
    pose proof (total_steps_left_insert (threads s) i p p' Hi) as Hsum.
    rewrite length_insert in IH2.
    cbn [length]. lia.
Qed.

(** While a thread has not finished, some thread can move. *)
Lemma invariant_progress fs mp vp (m v : pyobj Features) nm nv s i p :
  invariant mp vp m v nm nv s ->
  threads s !! i = Some p -> is_finished p = false ->
  exists j s', step fs j s = Some s'.
Proof.
  intros I Hi Hp.
  assert (Hmove : forall j pj,
             threads s !! j = Some pj ->
             thread_step fs (proc s) (locked s) pj <> None ->
             exists j s', step fs j s = Some s').
  { intros j pj Hj Hne. exists j. unfold step. rewrite Hj.
    destruct (thread_step fs (proc s) (locked s) pj) as [[[g' l'] p']|]; [|done].
    by eexists. }
  destruct (thread_step fs (proc s) (locked s) p) eqn:Hts.
  { apply (Hmove i p Hi). by rewrite Hts. }
  apply thread_step_blocked in Hts as [Hfin | [-> Hl]]; [congruence|].
  destruct (inv_locked _ _ _ _ _ _ _ I Hl) as (k & pk & Hk & Hpk).
  apply (Hmove k pk Hk). intros Hnone.
  apply thread_step_blocked in Hnone as [Hfin | [-> _]]; [|done].
  by destruct pk.
Qed.

(** In every state the invariant allows, each file has been deserialized
    at most once more than before the start. *)
Lemma invariant_counts mp vp (m v : pyobj Features) nm nv s :
  invariant mp vp m v nm nv s ->
  deserializations Model (proc s) <= nm + 1
  /\ deserializations Vectorizer (proc s) <= nv + 1.
Proof.
  intros I.
  assert (Hc : cold nm nv (proc s) \/ loaded m v nm nv (proc s) ->
               deserializations Model (proc s) <= nm + 1
               /\ deserializations Vectorizer (proc s) <= nv + 1).
  { intros [(_ & _ & -> & ->) | (_ & _ & -> & ->)]; lia. }
  destruct (locked s) eqn:E.
  - destruct (inv_locked _ _ _ _ _ _ _ I E) as (i & p & Hi & Hp).
    pose proof (inv_threads _ _ _ _ _ _ _ I i p Hi) as Hok.
    destruct p as [| | | | | |o| |o|[e|]|r]; cbn in Hp, Hok;
      try discriminate; try done; try (by apply Hc; auto).
    + destruct Hok as (_ & _ & _ & -> & ->). lia.
    + destruct Hok as (_ & _ & -> & ->). lia.
    + destruct Hok as (_ & _ & _ & -> & ->). lia.
  - apply Hc. by apply (inv_at_rest _ _ _ _ _ _ _ I E).
Qed.

(** One thread alone goes through the loader as [_load_artifacts_once]
    says. *)
Lemma drive_alone fs g :
  drive fs 10 {| proc := g; locked := false; threads := [AtFastModel] |}
  = {| proc := fst (_load_artifacts_once fs g);
       locked := false;
       threads := [Finished (snd (_load_artifacts_once fs g))] |}.
Proof.
  destruct g as [mp vp [m|] [v|] evs];
    destruct (fs mp) as [e1|e1|m1] eqn:E1;
    destruct (fs vp) as [e2|e2|v1] eqn:E2;
    unfold _load_artifacts_once, unpickle; cbn; rewrite ?E1; cbn;
    rewrite ?E2; cbn;
    repeat (unfold step, unpickle; cbn; rewrite ?E1, ?E2; cbn);
    reflexivity.
Qed.

(** C2.  Callers start together with nothing loaded, and both files hold
    objects.  Then, whatever the schedule: each file is
    deserialized at most once; at most one thread is inside the lock, so no
    two deserialize at the same time; no caller raises, and once any caller
    has finished both artifacts are set and each file has been deserialized
    exactly once; as long as a caller has not finished some thread can
    move; and the schedule is at most ten steps per caller long, so every
    caller does finish. *)
Theorem cold_start_deserializes_once fs g0 (m v : pyobj Features) (n : nat)
    (schedule : list nat) s :
  _loaded_model g0 = None -> _vectorizer g0 = None ->
  fs (MODEL_PATH g0) = Unpickled (Some m) ->
  fs (VECTORIZER_PATH g0) = Unpickled (Some v) ->
  run fs schedule (cold_start g0 n) = Some s ->
  deserializations Model (proc s) <= deserializations Model g0 + 1
  /\ deserializations Vectorizer (proc s) <= deserializations Vectorizer g0 + 1
  /\ (forall i j pi pj,
        threads s !! i = Some pi -> threads s !! j = Some pj ->
        holds_lock pi = true -> holds_lock pj = true -> i = j)
  /\ (forall p, is_deserializing p = true -> holds_lock p = true)
  /\ (forall i r,
        threads s !! i = Some (Finished r) ->
        r = Returns tt
        /\ _loaded_model (proc s) = Some m /\ _vectorizer (proc s) = Some v
        /\ deserializations Model (proc s) = deserializations Model g0 + 1
        /\ deserializations Vectorizer (proc s)
           = deserializations Vectorizer g0 + 1)
  /\ (forall i p,
        threads s !! i = Some p -> is_finished p = false ->
        exists j s', step fs j s = Some s')
  /\ length schedule + total_steps_left (threads s) <= 10 * n
  /\ length (threads s) = n.
Proof.
  intros Hm0 Hv0 Hm Hv Hrun.
  assert (I : invariant (MODEL_PATH g0) (VECTORIZER_PATH g0) m v
                (deserializations Model g0) (deserializations Vectorizer g0) s).
  { apply (run_keeps_invariant fs _ _ m v _ _ schedule (cold_start g0 n));
      try done.
    by apply invariant_cold_start. }
  destruct (invariant_counts _ _ _ _ _ _ _ I) as [Hcm Hcv].
  destruct (run_uses_steps fs schedule _ _ Hrun) as [Hlen Hthreads].
  cbn in Hlen, Hthreads.
  rewrite total_steps_left_replicate in Hlen.
  rewrite length_replicate in Hthreads.
  repeat split; try done.
  - apply (inv_mutex _ _ _ _ _ _ _ I).
  - by intros [].
  - by destruct (inv_threads _ _ _ _ _ _ _ I i _ H) as [? _].
  - by destruct (inv_threads _ _ _ _ _ _ _ I i _ H) as (_ & ? & _).
  - by destruct (inv_threads _ _ _ _ _ _ _ I i _ H) as (_ & _ & ? & _).
  - destruct (inv_threads _ _ _ _ _ _ _ I i _ H) as (_ & _ & _ & -> & _). lia.
  - destruct (inv_threads _ _ _ _ _ _ _ I i _ H) as (_ & _ & _ & _ & ->). lia.
  - intros i p Hi Hp. by apply (invariant_progress fs _ _ _ _ _ _ s i p I).
Qed.

End Schedules.

(** ** Concrete runs *)

Section Runs.

Import Fixtures.

(** The scenarios of the specification, on the stubs. *)
Example predict_fake :
  snd (predict_json fs_deployed
         (message_json (PStr (lit "Aliens have visited the world today"))) fresh)
  = {| status := 200; payload := JsonBody [(lit "label", JString (lit "FAKE"))] |}.
Proof. vm_compute. reflexivity. Qed.

Example predict_empty_message :
  snd (predict_json fs_deployed (message_json (PStr [])) fresh)
  = error_json 400 required_message.
Proof. vm_compute. reflexivity. Qed.

Example predict_transform_raises :
  snd (predict_json
         (fs_with (stub_classifier (PStr (lit "FAKE"))) failing_vectorizer)
         (message_json (PStr (lit "hello"))) fresh)
  = error_json 500 inference_failed.
Proof. vm_compute. reflexivity. Qed.

Example predict_boxed_number :
  snd (predict_json (fs_with (stub_classifier (PBoxed (lit "1") (PInt 1))) stub_vectorizer)
         (message_json (PStr (lit "hello"))) fresh)
  = {| status := 200; payload := JsonBody [(lit "label", JString (lit "1"))] |}.
Proof. vm_compute. reflexivity. Qed.

Example predict_json_array :
  snd (predict_json fs_deployed (JsonOther true) fresh)
  = {| status := 500; payload := InternalServerErrorPage |}.
Proof. vm_compute. reflexivity. Qed.

Example strip_unicode_space :
  strip ([160; 9] ++ lit "a b" ++ [8195; 10])%N = lit "a b".
Proof. vm_compute. reflexivity. Qed.

Example default_model_path : MODEL_PATH fresh = model_pkl.
Proof. vm_compute. reflexivity. Qed.

(** A cold start whose vectorizer file is missing: nothing is remembered
    of the failure, so two callers each deserialize the model file, and the
    one that waited for the lock raises as the first did. *)
Lemma failed_cold_start_deserializes_twice :
  exists s,
    run fs_model_only failing_schedule (cold_start fresh 2) = Some s
    /\ deserializations Model (proc s) = 2
    /\ threads s = [ Finished (Raises (not_found vectorizer_pkl));
                     Finished (Raises (not_found vectorizer_pkl)) ].
Proof. eexists. vm_compute. repeat split. Qed.

Lemma cold_start_deserializes_once_witness :
  exists s,
    run fs_deployed loading_schedule (cold_start fresh 2) = Some s
    /\ deserializations Model (proc s) = 1
    /\ deserializations Vectorizer (proc s) = 1.
Proof.
  eexists. split; [vm_compute; reflexivity|].
  lazymatch goal with
  | |- deserializations Model (proc ?s) = _ /\ _ =>
      assert (Hrun : run fs_deployed loading_schedule (cold_start fresh 2) = Some s)
        by (vm_compute; reflexivity);
      destruct (cold_start_deserializes_once fs_deployed fresh
                  (stub_classifier (PStr (lit "FAKE"))) stub_vectorizer
                  2 loading_schedule s eq_refl eq_refl eq_refl eq_refl Hrun)
        as (_ & _ & _ & _ & Hfinished & _);
      destruct (Hfinished 0 (Returns tt) eq_refl) as (_ & _ & _ & H1 & H2)
  end.
  split; [exact H1 | exact H2].
Defined.

(** C3, the claim as stated fails: a model file that is not a pickle makes
    the load attempt raise, and both prediction routes answer 500. *)
Lemma corrupt_model_answers_500 :
  (exists e, snd (_load_artifacts_once fs_corrupt_model fresh) = Raises e)
  /\ snd (predict_json fs_corrupt_model (message_json (PStr (lit "hello"))) fresh)
     = error_json 500 inference_failed
  /\ status (snd (predict_form fs_corrupt_model (Some (lit "hello")) fresh))
     = 500%Z.
Proof. vm_compute. split; [eauto|done]. Qed.

Lemma load_failure_status_witness :
  snd (predict_json fs_empty (message_json (PStr (lit "hello"))) fresh)
  = error_json 503 artifacts_not_found
  /\ status (snd (predict_form fs_empty (Some (lit " hello ")) fresh)) = 503%Z.
Proof.
  destruct (load_failure_status fs_empty fresh (not_found model_pkl)
              (message_json (PStr (lit "hello"))) (Some (lit " hello "))
              104%N 104%N (lit "ello") (lit "ello")
              eq_refl eq_refl eq_refl) as (H1 & H2 & _).
  split; [exact H1 | exact H2].
Defined.

(** C4, the claim as stated fails: the 503 page of [POST /predict-form]
    holds the resolved model path. *)
Lemma not_found_page_shows_model_path :
  let r := snd (predict_form fs_empty (Some (lit "hello")) fresh) in
  status r = 503%Z /\ contains (html_of r) (MODEL_PATH fresh) = true.
Proof. vm_compute. done. Qed.

Lemma error_bodies_are_generic_witness :
  snd (predict_json fs_empty (message_json (PStr (lit "hello"))) fresh)
  = error_json 503 artifacts_not_found
  /\ contains (html_of (snd (predict_form fs_empty (Some (lit "hello")) fresh)))
       (Jinja.escape (MODEL_PATH fresh)) = true.
Proof.
  destruct (error_bodies_are_generic fs_empty fresh
              (message_json (PStr (lit "hello"))) (Some (lit "hello")))
    as [Hjson Hform].
  split.
  - destruct (Hjson (or_introl eq_refl)) as [H | [H | H]];
      [exact H | vm_compute in H; discriminate H
       | vm_compute in H; discriminate H].
  - exact (proj2 (Hform (or_introl eq_refl))).
Defined.

Lemma blank_message_is_rejected_witness :
  predict_json fs_deployed (message_json (PStr (lit "   "))) fresh
  = (fresh, error_json 400 required_message).
Proof.
  exact (proj1 (proj2 (proj2 (proj2 (blank_message_is_rejected fs_deployed fresh))))
           {[ lit "message" := PStr (lit "   ") ]} (PStr (lit "   "))
           eq_refl eq_refl).
Defined.

Lemma non_string_message_is_coerced_witness :
  snd (predict_json (fs_with echo_classifier stub_vectorizer)
         (message_json PNone) fresh)
  = {| status := 200; payload := JsonBody [(lit "label", JString (lit "None"))] |}
  /\ snd (predict_json (fs_with echo_classifier stub_vectorizer)
            (message_json (PFloat F1 [FPoint; F5])) fresh)
     = {| status := 200; payload := JsonBody [(lit "label", JString (lit "1.5"))] |}
  /\ snd (predict_json (fs_with echo_classifier stub_vectorizer)
            (message_json (PList (lit "1, 2"))) fresh)
     = {| status := 200;
          payload := JsonBody [(lit "label", JString (lit "[1, 2]"))] |}.
Proof.
  assert (Hd : forall v, ({[ lit "message" := v ]} : gmap pystr pyval)
                           !! lit "message" = Some v).
  { intros v. apply lookup_singleton_eq. }
  split; [|split].
  - destruct (non_string_message_is_coerced
                (fs_with echo_classifier stub_vectorizer) fresh
                {[ lit "message" := PNone ]} PNone (Hd _) eq_refl)
      as (_ & _ & _ & _ & _ & _ & _ & H).
    apply (H (lit "None")). vm_compute. reflexivity.
  - destruct (non_string_message_is_coerced
                (fs_with echo_classifier stub_vectorizer) fresh
                {[ lit "message" := PFloat F1 [FPoint; F5] ]}
                (PFloat F1 [FPoint; F5]) (Hd _) eq_refl)
      as (_ & _ & _ & _ & _ & _ & _ & H).
    apply (H (lit "1.5")). vm_compute. reflexivity.
  - destruct (non_string_message_is_coerced
                (fs_with echo_classifier stub_vectorizer) fresh
                {[ lit "message" := PList (lit "1, 2") ]}
                (PList (lit "1, 2")) (Hd _) eq_refl)
      as (_ & _ & _ & _ & _ & _ & _ & H).
    apply (H (lit "[1, 2]")). vm_compute. reflexivity.
Defined.

Lemma paths_resolved_once_witness :
  MODEL_PATH (import_module (Features := list pystr) env_override (lit "/srv/app"))
  = lit "/opt/models/clf.pkl"
  /\ VECTORIZER_PATH
       (import_module (Features := list pystr) env_override (lit "/srv/app"))
     = lit "/srv/app/count_vectorizer.pkl".
Proof.
  destruct (paths_resolved_once (Features := list pystr) env_override
              (lit "/srv/app")) as (H1 & _ & _ & H4 & _).
  split.
  - exact (H1 47%N (lit "opt/models/clf.pkl") eq_refl).
  - exact (H4 (or_intror eq_refl)).
Defined.

End Runs.

(** * Further properties of the routes and the loader *)

Section AnatomyFacts.

Context {Features : Type}.
Implicit Types (g : process Features) (fs : filesystem Features).

(** The inference function is the loader followed by [infer] on the two
    globals. *)
Lemma predict_text_unfold fs (message : pystr) g :
  _predict_text fs message g
  = (fst (_load_artifacts_once fs (emit (PredictTextCalled message) g)),
     match snd (_load_artifacts_once fs (emit (PredictTextCalled message) g)) with
     | Raises e => Raises e
     | Returns _ =>
         infer (_vectorizer
                  (fst (_load_artifacts_once fs
                          (emit (PredictTextCalled message) g))))
               (_loaded_model
                  (fst (_load_artifacts_once fs
                          (emit (PredictTextCalled message) g))))
               message
     end).
Proof.
  unfold _predict_text, infer.
  destruct (_load_artifacts_once fs (emit (PredictTextCalled message) g))
    as [g1 [[]|e]]; cbn [fst snd]; [|done].
  destruct (call_transform (_vectorizer g1) [message]) as [X|e]; [|done].
  by destruct (call_predict (_loaded_model g1) X) as [[|val pred]|e].
Qed.

Lemma predict_text_loaded fs (message : pystr) g :
  both_loaded g = true ->
  _predict_text fs message g
  = (emit (PredictTextCalled message) g,
     infer (_vectorizer g) (_loaded_model g) message).
Proof.
  intros Hb. rewrite predict_text_unfold.
  by rewrite (load_fast_path fs (emit (PredictTextCalled message) g)).
Qed.

Lemma predict_text_keeps_model_path fs (message : pystr) g :
  MODEL_PATH (fst (_predict_text fs message g)) = MODEL_PATH g.
Proof.
  rewrite predict_text_state.
  by destruct (load_after_emit fs (PredictTextCalled message) g)
    as (_ & _ & _ & H).
Qed.

Lemma predict_json_nonblank fs (json : json_request) g c (s : pystr) :
  json_message json = Returns (c :: s) ->
  predict_json fs json g = reply_json (_predict_text fs (c :: s) g).
Proof.
  intros H. unfold predict_json, reply_json. rewrite H.
  by destruct (_predict_text fs (c :: s) g) as [g1 [label|e]].
Qed.

(** If [infer] returns, both globals hold an object. *)
Lemma infer_returns (vec clf : option (pyobj Features)) (message label : pystr) :
  infer vec clf message = Returns label ->
  is_not_None vec = true /\ is_not_None clf = true.
Proof.
  unfold infer. destruct vec as [vec|]; [|done].
  cbn. destruct (transform vec) as [t|]; [|done].
  destruct (t [message]) as [X|e]; [|done].
  by destruct clf.
Qed.

(** The loader's own events are lock traffic, file reads and two INFO
    records. *)
Lemma load_events_kind fs g :
  exists new,
    events (fst (_load_artifacts_once fs g)) = new ++ events g
    /\ Forall (fun ev => is_error_log ev = false
                         /\ forall m, ev <> PredictTextCalled m) new.
Proof.
  destruct g as [mp vp [m|] [v|] evs];
    unfold _load_artifacts_once, unpickle, both_loaded; cbn;
    try destruct (fs mp) as [e1|e1|m1]; cbn;
    try destruct (fs vp) as [e2|e2|v1]; cbn;
    lazymatch goal with
    | |- exists new, ?l = new ++ ?tl /\ _ =>
        let rec pre l :=
          lazymatch l with
          | tl => constr:(@nil event)
          | ?x :: ?r => let p := pre r in constr:(x :: p)
          end in
        let p := pre l in exists p
    end;
    (split; [reflexivity | repeat constructor; discriminate]).
Qed.

(** Between taking the lock and giving it back the loader does all its
    file reads; outside it does none. *)
Lemma load_events_shape fs g :
  exists new,
    events (fst (_load_artifacts_once fs g)) = new ++ events g
    /\ (both_loaded g = true /\ new = []
        \/ both_loaded g = false
           /\ exists mid, new = LockReleased :: mid ++ [LockAcquired]
                          /\ Forall (fun ev => is_lock_event ev = false) mid).
Proof.
  destruct g as [mp vp [m|] [v|] evs];
    unfold _load_artifacts_once, unpickle, both_loaded; cbn;
    try (exists []; split; [reflexivity|left; by split]);
    destruct (fs mp) as [e1|e1|m1]; cbn;
    try destruct (fs vp) as [e2|e2|v1]; cbn;
    lazymatch goal with
    | |- exists new, LockReleased :: ?l = new ++ ?tl /\ _ =>
        let rec pre l :=
          lazymatch l with
          | LockAcquired :: tl => constr:(@nil event)
          | ?x :: ?r => let p := pre r in constr:(x :: p)
          end in
        let p := pre l in
        exists (LockReleased :: p ++ [LockAcquired]);
        (split; [reflexivity|right; split; [reflexivity|]]);
        exists p; split; [reflexivity | repeat constructor]
    end.
Qed.

End AnatomyFacts.

Section RouteProperties.

Context {Features : Type}.
Implicit Types (g : process Features) (fs : filesystem Features).

(** X1. Once both artifacts are set they stay as they are: whatever the
    request, the answer and the process afterwards do not depend on the
    file system any more, the two globals are unchanged, and the request
    adds no lock traffic and no file read to the record; the background
    load changes nothing at all. *)
Theorem loaded_is_terminal fs fs' (req : request) g :
  both_loaded g = true ->
  handle fs req g = handle fs' req g
  /\ _loaded_model (fst (handle fs req g)) = _loaded_model g
  /\ _vectorizer (fst (handle fs req g)) = _vectorizer g
  /\ (exists new,
        events (fst (handle fs req g)) = new ++ events g
        /\ Forall (fun ev => is_lock_event ev = false
                             /\ is_file_event ev = false) new)
  /\ _eager_load_background fs g = g.
Proof.
  intros Hb.
  assert (Hreply : forall (message : pystr),
             let run := reply_json (_predict_text fs message g) in
             _loaded_model (fst run) = _loaded_model g
             /\ _vectorizer (fst run) = _vectorizer g
             /\ exists new,
                  events (fst run) = new ++ events g
                  /\ Forall (fun ev => is_lock_event ev = false
                                       /\ is_file_event ev = false) new).
  { intros message. rewrite (predict_text_loaded fs message g Hb). cbn.
    destruct (infer (_vectorizer g) (_loaded_model g) message) as [label|e];
      cbn.
    - repeat split. exists [PredictTextCalled message].
      split; [done|]. by repeat constructor.
    - destruct (is_FileNotFoundError e); cbn; repeat split.
      + exists [PredictTextCalled message]. split; [done|].
        by repeat constructor.
      + eexists [_; PredictTextCalled message]. split; [done|].
        by repeat constructor. }
  assert (Hnone : exists new : list event,
             events g = new ++ events g
             /\ Forall (fun ev => is_lock_event ev = false
                                  /\ is_file_event ev = false) new).
  { exists []. by split. }
  split; [|split; [|split; [|split]]].
  - destruct req as [| |field|json]; cbn; try done.
    + unfold predict_form.
      destruct (strip (form_or_empty field)) as [|c s]; [done|].
      by rewrite (predict_text_loaded fs (c :: s) g Hb),
                 (predict_text_loaded fs' (c :: s) g Hb).
    + unfold predict_json.
      destruct (json_message json) as [[|c s]|e]; try done.
      by rewrite (predict_text_loaded fs (c :: s) g Hb),
                 (predict_text_loaded fs' (c :: s) g Hb).
  - destruct req as [| |field|json]; cbn; try done.
    + unfold predict_form.
      destruct (strip (form_or_empty field)) as [|c s]; [done|].
      rewrite (predict_text_loaded fs (c :: s) g Hb).
      destruct (infer (_vectorizer g) (_loaded_model g) (c :: s)) as [l|e];
        [done|]. by destruct (is_FileNotFoundError e).
    + destruct (json_message json) as [[|c s]|e] eqn:Hj;
        try (unfold predict_json; by rewrite Hj).
      rewrite (predict_json_nonblank fs json g c s Hj).
      apply (Hreply (c :: s)).
  - destruct req as [| |field|json]; cbn; try done.
    + unfold predict_form.
      destruct (strip (form_or_empty field)) as [|c s]; [done|].
      rewrite (predict_text_loaded fs (c :: s) g Hb).
      destruct (infer (_vectorizer g) (_loaded_model g) (c :: s)) as [l|e];
        [done|]. by destruct (is_FileNotFoundError e).
    + destruct (json_message json) as [[|c s]|e] eqn:Hj;
        try (unfold predict_json; by rewrite Hj).
      rewrite (predict_json_nonblank fs json g c s Hj).
      apply (Hreply (c :: s)).
  - destruct req as [| |field|json]; cbn; try done.
    + unfold predict_form.
      destruct (strip (form_or_empty field)) as [|c s]; [done|].
      rewrite (predict_text_loaded fs (c :: s) g Hb).
      destruct (infer (_vectorizer g) (_loaded_model g) (c :: s)) as [l|e];
        cbn.
      * exists [PredictTextCalled (c :: s)]. split; [done|].
        by repeat constructor.
      * destruct (is_FileNotFoundError e); cbn.
        -- exists [PredictTextCalled (c :: s)]. split; [done|].
           by repeat constructor.
        -- eexists [_; PredictTextCalled (c :: s)]. split; [done|].
           by repeat constructor.
    + destruct (json_message json) as [[|c s]|e] eqn:Hj.
      * unfold predict_json. by rewrite Hj.
      * rewrite (predict_json_nonblank fs json g c s Hj).
        apply (Hreply (c :: s)).
      * unfold predict_json. rewrite Hj. eexists [_]. split; [done|].
        by repeat constructor.
  - unfold _eager_load_background. by rewrite (load_fast_path fs g Hb).
Qed.

(** X2. A 200 from either prediction route means both artifacts are set
    afterwards, so the next health check reports [model_loaded] true; the
    success page's fixed "loaded" flag is accurate. *)
Theorem success_means_loaded fs g (json : json_request) (field : option pystr) :
  (status (snd (predict_json fs json g)) = 200%Z ->
     both_loaded (fst (predict_json fs json g)) = true
     /\ json_field (lit "model_loaded") (health (fst (predict_json fs json g)))
        = Some (JBoolean true))
  /\ (status (snd (predict_form fs field g)) = 200%Z ->
        both_loaded (fst (predict_form fs field g)) = true
        /\ json_field (lit "model_loaded")
             (health (fst (predict_form fs field g)))
           = Some (JBoolean true)).
Proof.
  assert (H : forall (message : pystr) label,
             snd (_predict_text fs message g) = Returns label ->
             both_loaded (fst (_predict_text fs message g)) = true).
  { intros message label. rewrite predict_text_unfold. cbn [fst snd].
    destruct (snd (_load_artifacts_once fs
                     (emit (PredictTextCalled message) g))); [|done].
    intros Hi. apply infer_returns in Hi as [Hv Hm].
    unfold both_loaded. by rewrite Hv, Hm. }
  assert (Hh : forall g', both_loaded g' = true ->
             both_loaded g' = true
             /\ json_field (lit "model_loaded") (health g')
                = Some (JBoolean true)).
  { intros g' Hb. split; [done|]. cbn. unfold json_field. cbn.
    by rewrite Hb. }
  split.
  - unfold predict_json.
    destruct (json_message json) as [[|c s]|e]; cbn; try done.
    pose proof (H (c :: s)) as H'.
    destruct (_predict_text fs (c :: s) g) as [g1 [label|e]]; cbn in *.
    + intros _. apply Hh. by apply (H' label).
    + by destruct (is_FileNotFoundError e).
  - unfold predict_form.
    destruct (strip (form_or_empty field)) as [|c s]; cbn; try done.
    pose proof (H (c :: s)) as H'.
    destruct (_predict_text fs (c :: s) g) as [g1 [label|e]]; cbn in *.
    + intros _. apply Hh. by apply (H' label).
    + by destruct (is_FileNotFoundError e).
Qed.

(** X3. With both artifacts set, [POST /predict] answers what [infer]
    gives on them: a vectorizer without [transform], a classifier without
    [predict] and an empty prediction batch all end in the generic 500; an
    exception out of [transform] ends in 500, except [FileNotFoundError],
    which ends in the 503 "artifacts not found" although both artifacts
    are, and stay, loaded. *)
Theorem inference_failures fs g (vec clf : pyobj Features)
    (json : json_request) c (s : pystr) :
  _vectorizer g = Some vec -> _loaded_model g = Some clf ->
  json_message json = Returns (c :: s) ->
  predict_json fs json g
  = reply_json (emit (PredictTextCalled (c :: s)) g,
                infer (Some vec) (Some clf) (c :: s))
  /\ both_loaded (fst (predict_json fs json g)) = true
  /\ (transform vec = None ->
        snd (predict_json fs json g) = error_json 500 inference_failed)
  /\ (forall t X, transform vec = Some t -> t [c :: s] = Returns X ->
        predict clf = None ->
        snd (predict_json fs json g) = error_json 500 inference_failed)
  /\ (forall t p X, transform vec = Some t -> t [c :: s] = Returns X ->
        predict clf = Some p -> p X = Returns [] ->
        snd (predict_json fs json g) = error_json 500 inference_failed)
  /\ (forall t e, transform vec = Some t -> t [c :: s] = Raises e ->
        snd (predict_json fs json g)
        = if is_FileNotFoundError e then error_json 503 artifacts_not_found
          else error_json 500 inference_failed).
Proof.
  intros Hvec Hclf Hjson.
  assert (Hb : both_loaded g = true).
  { unfold both_loaded. by rewrite Hvec, Hclf. }
  assert (E : predict_json fs json g
              = reply_json (emit (PredictTextCalled (c :: s)) g,
                            infer (Some vec) (Some clf) (c :: s))).
  { rewrite (predict_json_nonblank fs json g c s Hjson).
    rewrite (predict_text_loaded fs (c :: s) g Hb). by rewrite Hvec, Hclf. }
  rewrite E. split; [done|]. split.
  { cbn. destruct (infer (Some vec) (Some clf) (c :: s)) as [l|e]; cbn;
      [done|]. by destruct (is_FileNotFoundError e). }
  unfold infer, call_transform, call_predict, reply_json.
  split; [by intros ->|].
  split; [by intros t X -> -> ->|].
  split; [by intros t p X -> -> -> ->|].
  intros t e -> ->. by destruct (is_FileNotFoundError e).
Qed.

(** X4. The two prediction routes treat the same text alike: for a form
    field and a JSON [message] string with the same text, the process
    afterwards and the status are the same, and the label in the JSON
    answer is the prediction shown on the page. *)
Theorem routes_agree fs g (d : gmap pystr pyval) (x : pystr) :
  d !! lit "message" = Some (PStr x) ->
  outline (predict_form fs (Some x) g) = outline (predict_json fs (JsonObject d) g)
  /\ (forall label,
        snd (predict_json fs (JsonObject d) g)
        = {| status := 200;
             payload := JsonBody [(lit "label", JString label)] |} ->
        snd (predict_form fs (Some x) g)
        = {| status := 200;
             payload := page {| Jinja.model_loaded := true;
                                Jinja.model_path := MODEL_PATH g;
                                Jinja.prediction := Some label;
                                Jinja.error := None;
                                Jinja.form_message := x |} |}).
Proof.
  intros Hd. unfold outline, predict_form, predict_json, json_message.
  rewrite Hd. cbn [default from_option id form_or_empty py_str].
  destruct (strip x) as [|c s]; [split; [done|]; by intros label [=]|].
  pose proof (predict_text_keeps_model_path fs (c :: s) g) as Hp.
  destruct (_predict_text fs (c :: s) g) as [g1 [l|e]]; cbn in *.
  - split; [done|]. intros label [= ->]. by rewrite Hp.
  - destruct (is_FileNotFoundError e); cbn; (split; [done|]);
      by intros label [=].
Qed.

(** X5. A route answers 200, 400, 500 or 503 and nothing else; a
    prediction route answers 400 exactly when the message is empty after
    stripping, and then leaves the process as it was. *)
Theorem status_codes fs (req : request) g :
  (status (snd (handle fs req g)) = 200%Z
   \/ status (snd (handle fs req g)) = 400%Z
   \/ status (snd (handle fs req g)) = 500%Z
   \/ status (snd (handle fs req g)) = 503%Z)
  /\ (forall json, req = POST_predict json ->
        (status (snd (handle fs req g)) = 400%Z
         <-> json_message json = Returns []))
  /\ (forall field, req = POST_predict_form field ->
        (status (snd (handle fs req g)) = 400%Z
         <-> strip (form_or_empty field) = []))
  /\ (status (snd (handle fs req g)) = 400%Z -> fst (handle fs req g) = g).
Proof.
  destruct req as [| |field|json]; cbn.
  - split; [by auto|]. split; [by intros j [=]|].
    split; [by intros f [=]|]. done.
  - split; [by auto|]. split; [by intros j [=]|].
    split; [by intros f [=]|]. done.
  - unfold predict_form.
    destruct (strip (form_or_empty field)) as [|c s] eqn:Hs; cbn.
    + split; [by auto|]. split; [by intros j [=]|].
      split; [intros f [= <-]; by rewrite Hs|]. done.
    + destruct (_predict_text fs (c :: s) g) as [g1 [l|e]]; cbn;
        [|destruct (is_FileNotFoundError e); cbn];
        (split; [by auto|]); (split; [by intros j [=]|]);
        (split; [intros f [= <-]; rewrite Hs; by split|]); done.
  - unfold predict_json.
    destruct (json_message json) as [[|c s]|e] eqn:Hj; cbn.
    + split; [by auto|]. split; [intros j [= <-]; by rewrite Hj|].
      split; [by intros f [=]|]. done.
    + destruct (_predict_text fs (c :: s) g) as [g1 [l|e]]; cbn;
        [|destruct (is_FileNotFoundError e); cbn];
        (split; [by auto|]);
        (split; [intros j [= <-]; rewrite Hj; by split|]);
        (split; [by intros f [=]|]); done.
    + split; [by auto|].
      split; [intros j [= <-]; rewrite Hj; by split|].
      split; [by intros f [=]|]. done.
Qed.

End RouteProperties.

Section StripFacts.

Lemma lstrip_idem (s : pystr) : lstrip (lstrip s) = lstrip s.
Proof.
  destruct (lstrip_head s) as [-> | (c & r & -> & Hc)]; [done|].
  cbn. by rewrite Hc.
Qed.

Lemma lstrip_split (s : pystr) : exists w, s = w ++ lstrip s.
Proof.
  induction s as [|c r [w IH]]; [by exists []|].
  cbn. destruct (isspace c).
  - exists (c :: w). cbn. by rewrite <- IH.
  - by exists [].
Qed.

(** What [strip] returns does not start with white space ... *)
Lemma strip_head (s : pystr) :
  strip s = [] \/ exists c r, strip s = c :: r /\ isspace c = false.
Proof.
  unfold strip, rstrip.
  destruct (lstrip_split (rev (lstrip s))) as [w Hw].
  apply (f_equal (@rev N)) in Hw. rewrite rev_involutive, rev_app_distr in Hw.
  destruct (rev (lstrip (rev (lstrip s)))) as [|a q]; [by left|].
  right. exists a, q. split; [done|].
  destruct (lstrip_head s) as [E | (c & r & E & Hc)]; rewrite E in Hw;
    cbn in Hw; [done|].
  by injection Hw as -> _.
Qed.

(** ... and does not end with it. *)
Lemma strip_last (s : pystr) :
  strip s = [] \/ exists r c, strip s = r ++ [c] /\ isspace c = false.
Proof.
  unfold strip, rstrip.
  destruct (lstrip_head (rev (lstrip s))) as [-> | (c & r & -> & Hc)];
    [by left|].
  right. by exists (rev r), c.
Qed.

Lemma strip_idem (s : pystr) : strip (strip s) = strip s.
Proof.
  assert (Hl : lstrip (strip s) = strip s).
  { destruct (strip_head s) as [-> | (c & r & -> & Hc)]; [done|].
    cbn. by rewrite Hc. }
  unfold strip at 1. rewrite Hl. unfold strip, rstrip.
  by rewrite rev_involutive, lstrip_idem.
Qed.

End StripFacts.

Section RecordProperties.

Context {Features : Type}.
Implicit Types (g : process Features) (fs : filesystem Features).

Lemma predict_text_events_kind fs (message : pystr) g :
  exists new,
    events (fst (_predict_text fs message g))
    = new ++ PredictTextCalled message :: events g
    /\ Forall (fun ev => is_error_log ev = false
                         /\ forall m, ev <> PredictTextCalled m) new.
Proof.
  rewrite predict_text_state.
  destruct (load_events_kind fs (emit (PredictTextCalled message) g))
    as (new & E & Hnew).
  exists new. by split.
Qed.

(** X6. What [POST /predict] writes to the log at ERROR level.  The
    generic 500 comes with exactly one ERROR record, the newest, that
    carries the text of the exception the inference function raised.  The
    framework's own 500, for a body line 194 cannot read, comes with the
    framework's one record of the unhandled exception and nothing else.
    An answer that is not a 500, the 503 included, comes with no ERROR
    record at all. *)
Theorem error_logging fs (json : json_request) g :
  exists new,
    events (fst (predict_json fs json g)) = new ++ events g
    /\ (snd (predict_json fs json g) = error_json 500 inference_failed ->
          exists (message : pystr) e rest,
            snd (_predict_text fs message g) = Raises e
            /\ is_FileNotFoundError e = false
            /\ new = Logged ERROR (lit "Inference error: " ++ exn_detail e)
                     :: rest
            /\ Forall (fun ev => is_error_log ev = false) rest)
    /\ (payload (snd (predict_json fs json g)) = InternalServerErrorPage ->
          (exists e, json_message json = Raises e)
          /\ new = [Logged ERROR (lit "Exception on /predict [POST]")])
    /\ (status (snd (predict_json fs json g)) <> 500%Z ->
          Forall (fun ev => is_error_log ev = false) new).
Proof.
  unfold predict_json.
  destruct (json_message json) as [[|c s]|e0]; cbn.
  - exists []. split; [done|]. split; [by intros [=]|]. split; [done|done].
  - destruct (predict_text_events_kind fs (c :: s) g) as (new & E & Hnew).
    assert (Hk : Forall (fun ev => is_error_log ev = false)
                   (new ++ [PredictTextCalled (c :: s)])).
    { apply Forall_app. split; [|by repeat constructor].
      eapply Forall_impl; [exact Hnew|]. by intros ev [? _]. }
    assert (Hshape : events (fst (_predict_text fs (c :: s) g))
                     = (new ++ [PredictTextCalled (c :: s)]) ++ events g).
    { rewrite E. by rewrite <- app_assoc. }
    destruct (_predict_text fs (c :: s) g) as [g1 [label|e]] eqn:Hrun;
      cbn in *.
    + exists (new ++ [PredictTextCalled (c :: s)]).
      split; [done|]. split; [by intros [=]|]. split; [done|done].
    + destruct (is_FileNotFoundError e) eqn:Hfnf; cbn.
      * exists (new ++ [PredictTextCalled (c :: s)]).
        split; [done|]. split; [by intros [=]|]. split; [done|done].
      * exists (Logged ERROR (lit "Inference error: " ++ exn_detail e)
                :: new ++ [PredictTextCalled (c :: s)]).
        split; [by rewrite Hshape|]. split; [|split; [done|done]].
        intros _. exists (c :: s), e, (new ++ [PredictTextCalled (c :: s)]).
        by rewrite Hrun.
  - eexists [_]. split; [reflexivity|]. split; [by intros [=]|].
    split; [|done]. intros _. split; [by exists e0|done].
Qed.

(** X7. A failed load is not remembered.  After a load attempt (by a
    caller or by the background thread) that started with the vectorizer
    unset and raised, a later attempt that finds objects in both files
    returns and stores exactly those two objects, also when the failed
    attempt had left a model behind; the background thread swallowed the
    exception and left one WARNING record with its text. *)
Theorem failed_load_is_retried fs1 fs2 g (e : exn) (m2 v2 : pyobj Features) :
  _vectorizer g = None ->
  snd (_load_artifacts_once fs1 g) = Raises e ->
  fs2 (MODEL_PATH g) = Unpickled (Some m2) ->
  fs2 (VECTORIZER_PATH g) = Unpickled (Some v2) ->
  (forall g1,
     g1 = fst (_load_artifacts_once fs1 g) \/ g1 = _eager_load_background fs1 g ->
     snd (_load_artifacts_once fs2 g1) = Returns tt
     /\ _loaded_model (fst (_load_artifacts_once fs2 g1)) = Some m2
     /\ _vectorizer (fst (_load_artifacts_once fs2 g1)) = Some v2)
  /\ _eager_load_background fs1 g
     = emit (Logged WARNING (lit "Background eager load failed: " ++ exn_detail e))
            (fst (_load_artifacts_once fs1 g)).
Proof.
  intros Hv Hfail Hm2 Hv2.
  assert (Hbg : _eager_load_background fs1 g
                = emit (Logged WARNING
                          (lit "Background eager load failed: " ++ exn_detail e))
                       (fst (_load_artifacts_once fs1 g))).
  { unfold _eager_load_background.
    destruct (_load_artifacts_once fs1 g) as [g1 r]. cbn in Hfail. by subst r. }
  split; [|exact Hbg].
  destruct (load_failure fs1 g e Hfail) as (_ & Hvec & _).
  destruct (load_keeps_paths fs1 g) as [Hmp Hvp].
  assert (H : forall g1,
             _vectorizer g1 = None -> MODEL_PATH g1 = MODEL_PATH g ->
             VECTORIZER_PATH g1 = VECTORIZER_PATH g ->
             snd (_load_artifacts_once fs2 g1) = Returns tt
             /\ _loaded_model (fst (_load_artifacts_once fs2 g1)) = Some m2
             /\ _vectorizer (fst (_load_artifacts_once fs2 g1)) = Some v2).
  { intros g1 Hv1 Hmp1 Hvp1.
    destruct (load_success fs2 g1 (Some m2) (Some v2))
      as (g2 & E & Hm & Hv' & _).
    - unfold both_loaded. rewrite Hv1. apply andb_false_r.
    - by rewrite Hmp1.
    - by rewrite Hvp1.
    - by rewrite E. }
  intros g1 [-> | ->].
  - apply H; [by rewrite Hvec|done|done].
  - rewrite Hbg. apply H; cbn; [by rewrite Hvec|done|done].
Qed.

(** X8. The loader reads files only while it holds the lock, and always
    gives the lock back: a call that finds both artifacts set adds nothing
    to the record; any other call, whether it returns or raises, adds one
    [LockAcquired] first and one [LockReleased] last, with every file read
    in between. *)
Theorem files_read_under_lock fs g :
  exists new,
    events (fst (_load_artifacts_once fs g)) = new ++ events g
    /\ (both_loaded g = true /\ new = []
        \/ both_loaded g = false
           /\ exists mid, new = LockReleased :: mid ++ [LockAcquired]
                          /\ Forall (fun ev => is_lock_event ev = false) mid
                          /\ In (OpenCalled (MODEL_PATH g)) mid).
Proof.
  destruct (load_events_shape fs g) as (new & E & [H | (Hb & mid & Hnew & Hmid)]).
  - exists new. split; [done|]. by left.
  - exists new. split; [done|]. right. split; [done|].
    exists mid. split; [done|]. split; [done|].
    destruct (load_slow_path fs g Hb) as (pre & E').
    rewrite E, Hnew in E'.
    assert (Hcut : LockReleased :: mid
                   = pre ++ [OpenCalled (MODEL_PATH g);
                             Logged INFO (lit "Loading artifacts...")]).
    { apply (app_inv_tail (LockAcquired :: events g)).
      rewrite <- !app_assoc. cbn in *. by rewrite <- app_assoc in E'. }
    destruct pre as [|x pre]; [done|].
    injection Hcut as _ ->. apply in_or_app. right. by left.
Qed.

(** X9. Whatever text reaches the inference function from a route has
    been stripped: it is not empty, stripping it again changes nothing,
    and neither its first nor its last character is white space. *)
Theorem inference_sees_stripped_text fs (req : request) g :
  exists new,
    events (fst (handle fs req g)) = new ++ events g
    /\ forall m, In (PredictTextCalled m) new ->
         strip m = m
         /\ (exists c r, m = c :: r /\ isspace c = false)
         /\ (exists r c, m = r ++ [c] /\ isspace c = false).
Proof.
  assert (Hs : forall x c (s : pystr), strip x = c :: s ->
             strip (c :: s) = c :: s
             /\ (exists c' r, c :: s = c' :: r /\ isspace c' = false)
             /\ (exists r c', c :: s = r ++ [c'] /\ isspace c' = false)).
  { intros x c s E. rewrite <- E. split; [apply strip_idem|]. split.
    - destruct (strip_head x) as [H | H]; [by rewrite E in H | exact H].
    - destruct (strip_last x) as [H | H]; [by rewrite E in H | exact H]. }
  assert (Hrun : forall x c (s : pystr) (extra : list event),
             strip x = c :: s ->
             Forall (fun ev => forall m, ev <> PredictTextCalled m) extra ->
             exists new,
               extra ++ events (fst (_predict_text fs (c :: s) g))
               = new ++ events g
               /\ forall m, In (PredictTextCalled m) new ->
                    strip m = m
                    /\ (exists c r, m = c :: r /\ isspace c = false)
                    /\ (exists r c, m = r ++ [c] /\ isspace c = false)).
  { intros x c s extra E Hextra.
    destruct (predict_text_events fs (c :: s) g) as (new & Hnew & Hfa).
    exists (extra ++ new ++ [PredictTextCalled (c :: s)]). split.
    - rewrite Hnew. by rewrite <- !app_assoc.
    - intros m Hin. rewrite app_assoc in Hin.
      assert (m = c :: s) as ->.
      { apply (in_new_events (extra ++ new) (c :: s) m); [|exact Hin].
        apply Forall_app. by split. }
      by apply (Hs x). }
  destruct req as [| |field|json]; cbn.
  - by exists [].
  - by exists [].
  - unfold predict_form.
    destruct (strip (form_or_empty field)) as [|c s] eqn:Hx; [by exists []|].
    pose proof (fun extra => Hrun (form_or_empty field) c s extra Hx) as H.
    destruct (_predict_text fs (c :: s) g) as [g1 [label|e]]; cbn in *.
    + exact (H [] (List.Forall_nil _)).
    + destruct (is_FileNotFoundError e); cbn.
      * exact (H [] (List.Forall_nil _)).
      * apply (H [_]). by repeat constructor.
  - unfold predict_json.
    destruct (json_message json) as [[|c s]|e] eqn:Hjson;
      [by exists []| |].
    2:{ eexists [_]. split; [reflexivity|]. by intros m [H | []]. }
    assert (Hx : exists x, strip x = c :: s).
    { destruct json as [|d|[]]; cbn in Hjson; inversion Hjson; eauto. }
    destruct Hx as [x Hx].
    pose proof (fun extra => Hrun x c s extra Hx) as H.
    destruct (_predict_text fs (c :: s) g) as [g1 [label|e]]; cbn in *.
    + exact (H [] (List.Forall_nil _)).
    + destruct (is_FileNotFoundError e); cbn.
      * exact (H [] (List.Forall_nil _)).
      * apply (H [_]). by repeat constructor.
Qed.

End RecordProperties.

Section LockDiscipline.

Context {Features : Type}.
Variable fs : filesystem Features.
Variables mp vp : pystr.

Implicit Types (g : process Features) (s : system Features) (p : pc Features).

Local Abbreviation li := (lock_invariant fs mp vp).

Lemma lock_invariant_cold_start g n :
  MODEL_PATH g = mp -> VECTORIZER_PATH g = vp -> li (cold_start g n).
Proof.
  intros Hmp Hvp.
  assert (Hall : forall i p,
             replicate n (@AtFastModel Features) !! i = Some p -> p = AtFastModel).
  { intros i p H. by apply lookup_replicate in H as [-> _]. }
  constructor; cbn; try done.
  - intros i j pi pj Hi _ Hpi _. by rewrite (Hall i pi Hi) in Hpi.
  - intros _ i p Hi. by rewrite (Hall i p Hi).
  - intros i p e Hi. by rewrite (Hall i p Hi).
Qed.

Lemma lock_invariant_update s i p g' (l' : bool) p' :
  li s -> threads s !! i = Some p ->
  MODEL_PATH g' = mp -> VECTORIZER_PATH g' = vp ->
  l' = (if holds_lock p' then true
        else if holds_lock p then false else locked s) ->
  (holds_lock p' = true -> holds_lock p = false -> locked s = false) ->
  (forall e, carried p' = Some e -> raised_by fs mp e \/ raised_by fs vp e) ->
  li {| proc := g'; locked := l'; threads := <[i := p']> (threads s) |}.
Proof.
  intros I Hi Hmp Hvp Hl Hacq Hcar.
  assert (Hnon : holds_lock p = true \/ locked s = false ->
                 forall j pj, j <> i -> threads s !! j = Some pj ->
                              holds_lock pj = false).
  { intros [Hp | Hu] j pj Hji Hj.
    - destruct (holds_lock pj) eqn:E; [|done].
      destruct Hji. by apply (li_mutex _ _ _ _ I j i pj p).
    - by apply (li_unlocked _ _ _ _ I Hu j pj). }
  constructor; cbn.
  - exact Hmp.
  - exact Hvp.
  - intros a b pa pb Ha Hb Hpa Hpb.
    apply list_lookup_insert_Some in Ha as [(<- & -> & _) | (Ha1 & Ha)];
      apply list_lookup_insert_Some in Hb as [(<- & -> & _) | (Hb1 & Hb)];
      try done.
    + destruct (holds_lock p) eqn:Hp.
      * by apply (li_mutex _ _ _ _ I i b p pb).
      * rewrite (Hnon (or_intror (Hacq Hpa eq_refl)) b pb) in Hpb; by auto.
    + destruct (holds_lock p) eqn:Hp.
      * by apply (li_mutex _ _ _ _ I a i pa p).
      * rewrite (Hnon (or_intror (Hacq Hpb eq_refl)) a pa) in Hpa; by auto.
    + by apply (li_mutex _ _ _ _ I a b pa pb).
  - intros Hl' j pj Hj. subst l'.
    destruct (holds_lock p') eqn:Hp'; [done|].
    apply list_lookup_insert_Some in Hj as [(<- & -> & _) | (Hji & Hj)]; [done|].
    apply (Hnon) with (j := j); [|by auto|done].
    destruct (holds_lock p); by auto.
  - intros Hl'. subst l'.
    destruct (holds_lock p') eqn:Hp'.
    + exists i, p'. split; [|done].
      apply list_lookup_insert_eq. by eapply lookup_lt_Some.
    + destruct (holds_lock p) eqn:Hp; [done|].
      destruct (li_locked _ _ _ _ I Hl') as (k & pk & Hk & Hpk).
      exists k, pk. split; [|done].
      rewrite list_lookup_insert_ne; [done|].
      intros ->. rewrite Hi in Hk. injection Hk as ->. congruence.
  - intros j pj e Hj Hc.
    apply list_lookup_insert_Some in Hj as [(<- & -> & _) | (Hji & Hj)].
    + by apply Hcar.
    + by apply (li_carried _ _ _ _ I j pj e).
Qed.

Lemma step_keeps_lock_invariant s i s' :
  li s -> step fs i s = Some s' -> li s'.
Proof.
  intros I Hstep. unfold step in Hstep.
  destruct (threads s !! i) as [p|] eqn:Hi; [|done].
  destruct (thread_step fs (proc s) (locked s) p) as [[[g' l'] p']|] eqn:Hts;
    [|done].
  injection Hstep as <-.
  pose proof (li_model_path _ _ _ _ I) as Hmp.
  pose proof (li_vectorizer_path _ _ _ _ I) as Hvp.
  assert (Hheld : holds_lock p = true -> locked s = true).
  { intros Hp. destruct (locked s) eqn:E; [done|].
    rewrite (li_unlocked _ _ _ _ I E i p Hi) in Hp. done. }
  pose proof (li_carried _ _ _ _ I i p) as Hcar.
  destruct p as [| | | | | |o| |o|pending|r]; cbn in Hts, Hheld, Hcar.
  - injection Hts as <- <- <-.
    apply (lock_invariant_update s i AtFastModel); try done;
      destruct (is_not_None (_loaded_model (proc s))); cbn; by auto.
  - injection Hts as <- <- <-.
    apply (lock_invariant_update s i AtFastVectorizer); try done;
      destruct (is_not_None (_vectorizer (proc s))); cbn; by auto.
  - destruct (locked s) eqn:Hl; [done|]. injection Hts as <- <- <-.
    by apply (lock_invariant_update s i AtAcquire).
  - injection Hts as <- <- <-. rewrite (Hheld eq_refl).
    apply (lock_invariant_update s i AtCheckModel); try done;
      destruct (is_None (_loaded_model (proc s))); cbn; by auto.
  - injection Hts as <- <- <-. rewrite (Hheld eq_refl).
    apply (lock_invariant_update s i AtCheckVectorizer); try done;
      destruct (is_None (_vectorizer (proc s))); cbn; by auto.
  - unfold unpickle in Hts. cbn in Hts. rewrite Hmp in Hts.
    destruct (fs mp) as [e|e|o] eqn:Hfile; cbn in Hts;
      injection Hts as <- <- <-; rewrite (Hheld eq_refl);
      apply (lock_invariant_update s i AtOpenModel); try done; cbn;
      intros e' [= <-]; left; unfold raised_by; by auto.
  - injection Hts as <- <- <-. rewrite (Hheld eq_refl).
    by apply (lock_invariant_update s i (AtStoreModel o)).
  - unfold unpickle in Hts. cbn in Hts. rewrite Hvp in Hts.
    destruct (fs vp) as [e|e|o] eqn:Hfile; cbn in Hts;
      injection Hts as <- <- <-; rewrite (Hheld eq_refl);
      apply (lock_invariant_update s i AtOpenVectorizer); try done; cbn;
      intros e' [= <-]; right; unfold raised_by; by auto.
  - injection Hts as <- <- <-. rewrite (Hheld eq_refl).
    by apply (lock_invariant_update s i (AtStoreVectorizer o)).
  - injection Hts as <- <- <-.
    apply (lock_invariant_update s i (AtRelease pending)); try done; cbn.
    destruct pending as [e|]; cbn; [|done].
    intros e' [= <-]. by apply Hcar.
  - done.
Qed.

Lemma run_keeps_lock_invariant schedule s s' :
  li s -> run fs schedule s = Some s' -> li s'.
Proof.
  revert s. induction schedule as [|i rest IH]; intros s I Hrun; cbn in Hrun.
  - by injection Hrun as <-.
  - destruct (step fs i s) as [s1|] eqn:Hstep; [|done].
    apply (IH s1); [|done]. by apply (step_keeps_lock_invariant s i).
Qed.

End LockDiscipline.

Section LockProperties.

Context {Features : Type}.
Implicit Types (g : process Features) (s : system Features) (p : pc Features)
  (fs : filesystem Features).

(** X10. Whatever the two files hold, and whatever the schedule of a cold
    start: at most one caller is inside the lock, the lock is held exactly
    when some caller is inside, a caller raises only what reading one of the
    two files raised, some thread can always move while a caller has not
    finished, no caller takes more than ten steps, and when all callers
    have finished the lock is free. *)
Theorem lock_discipline fs g (n : nat) (schedule : list nat) s :
  run fs schedule (cold_start g n) = Some s ->
  (forall i j pi pj,
     threads s !! i = Some pi -> threads s !! j = Some pj ->
     holds_lock pi = true -> holds_lock pj = true -> i = j)
  /\ (locked s = true
      <-> exists i p, threads s !! i = Some p /\ holds_lock p = true)
  /\ (forall i e,
        threads s !! i = Some (Finished (Raises e)) ->
        raised_by fs (MODEL_PATH g) e \/ raised_by fs (VECTORIZER_PATH g) e)
  /\ (forall i p,
        threads s !! i = Some p -> is_finished p = false ->
        exists j s', step fs j s = Some s')
  /\ length schedule + total_steps_left (threads s) <= 10 * n
  /\ ((forall i p, threads s !! i = Some p -> is_finished p = true) ->
      locked s = false).
Proof.
  intros Hrun.
  assert (I : lock_invariant fs (MODEL_PATH g) (VECTORIZER_PATH g) s).
  { apply (run_keeps_lock_invariant fs _ _ schedule (cold_start g n));
      [|done]. by apply lock_invariant_cold_start. }
  destruct (run_uses_steps fs schedule _ _ Hrun) as [Hlen _].
  cbn in Hlen. rewrite total_steps_left_replicate in Hlen.
  assert (Hiff : locked s = true
                 <-> exists i p, threads s !! i = Some p /\ holds_lock p = true).
  { split; [apply (li_locked _ _ _ _ I)|].
    intros (i & p & Hi & Hp). destruct (locked s) eqn:E; [done|].
    rewrite (li_unlocked _ _ _ _ I E i p Hi) in Hp. done. }
  split; [apply (li_mutex _ _ _ _ I)|]. split; [exact Hiff|].
  split; [intros i e Hi; by apply (li_carried _ _ _ _ I i _ e Hi)|].
  split; [|split; [exact Hlen|]].
  - intros i p Hi Hp.
    assert (Hmove : forall j pj,
               threads s !! j = Some pj ->
               thread_step fs (proc s) (locked s) pj <> None ->
               exists j s', step fs j s = Some s').
    { intros j pj Hj Hne. exists j. unfold step. rewrite Hj.
      destruct (thread_step fs (proc s) (locked s) pj) as [[[g' l'] p']|];
        [|done]. by eexists. }
    destruct (thread_step fs (proc s) (locked s) p) eqn:Hts.
    { apply (Hmove i p Hi). by rewrite Hts. }
    apply thread_step_blocked in Hts as [Hfin | [-> Hl]]; [congruence|].
    destruct (li_locked _ _ _ _ I Hl) as (k & pk & Hk & Hpk).
    apply (Hmove k pk Hk). intros Hnone.
    apply thread_step_blocked in Hnone as [Hfin | [-> _]]; [|done].
    by destruct pk.
  - intros Hall. destruct (locked s) eqn:E; [|done].
    destruct (li_locked _ _ _ _ I E) as (k & pk & Hk & Hpk).
    specialize (Hall k pk Hk). by destruct pk.
Qed.

(** X11. One caller alone, taken step by step through the thread model,
    ends with the lock free, in the process and with the outcome that
    [_load_artifacts_once] gives for a single caller; it needs at most ten
    steps. *)
Theorem single_caller_agrees fs g :
  drive fs 10 (cold_start g 1)
  = {| proc := fst (_load_artifacts_once fs g);
       locked := false;
       threads := [Finished (snd (_load_artifacts_once fs g))] |}
  /\ forall k, drive fs (10 + k) (cold_start g 1) = drive fs 10 (cold_start g 1).
Proof.
  pose proof (drive_alone fs g) as H. unfold cold_start. cbn [replicate].
  split; [exact H|].
  intros k. change (10 + k) with (S (S (S (S (S (S (S (S (S (S k)))))))))).
  revert H.
  destruct g as [mp vp [m|] [v|] evs];
    destruct (fs mp) as [e1|e1|m1] eqn:E1;
    destruct (fs vp) as [e2|e2|v1] eqn:E2;
    unfold _load_artifacts_once, unpickle; cbn; rewrite ?E1; cbn;
    rewrite ?E2; cbn;
    repeat (unfold step, unpickle; cbn; rewrite ?E1, ?E2; cbn);
    intros _; by destruct k.
Qed.

End LockProperties.

(** ** Concrete runs of the further properties *)

Section FurtherRuns.

Import Fixtures.

Lemma loaded_is_terminal_witness :
  snd (handle fs_empty (POST_predict (message_json (PStr (lit "hello")))) warm)
  = {| status := 200; payload := JsonBody [(lit "label", JString (lit "FAKE"))] |}
  /\ _eager_load_background fs_empty warm = warm.
Proof.
  destruct (loaded_is_terminal fs_empty fs_deployed
              (POST_predict (message_json (PStr (lit "hello")))) warm eq_refl)
    as (H & _ & _ & _ & Hbg).
  split; [|exact Hbg]. rewrite H. vm_compute. reflexivity.
Defined.

Lemma success_means_loaded_witness :
  both_loaded (fst (predict_json fs_deployed
                      (message_json (PStr (lit "hello"))) fresh)) = true.
Proof.
  apply (proj1 (success_means_loaded fs_deployed fresh
                  (message_json (PStr (lit "hello"))) None)).
  vm_compute. reflexivity.
Defined.

Lemma inference_failures_witness :
  let g := fst (_load_artifacts_once
                  (fs_with (stub_classifier (PStr (lit "FAKE")))
                           vanishing_vectorizer) fresh) in
  let run := predict_json fs_empty (message_json (PStr (lit "hello"))) g in
  snd run = error_json 503 artifacts_not_found
  /\ both_loaded (fst run) = true.
Proof.
  intros g run.
  assert (Hj : json_message (message_json (PStr (lit "hello")))
               = Returns (104%N :: lit "ello")) by (vm_compute; reflexivity).
  destruct (inference_failures fs_empty g vanishing_vectorizer
              (stub_classifier (PStr (lit "FAKE")))
              (message_json (PStr (lit "hello"))) 104%N (lit "ello")
              eq_refl eq_refl Hj) as (_ & Hb & _ & _ & _ & Hraise).
  split; [|exact Hb].
  exact (Hraise (fun _ => Raises (not_found (lit "vocabulary.txt")))
           (not_found (lit "vocabulary.txt")) eq_refl eq_refl).
Defined.

Lemma routes_agree_witness :
  outline (predict_form fs_deployed (Some (lit " hello ")) fresh)
  = outline (predict_json fs_deployed (message_json (PStr (lit " hello "))) fresh).
Proof.
  assert (Hd : ({[ lit "message" := PStr (lit " hello ") ]} : gmap pystr pyval)
                 !! lit "message" = Some (PStr (lit " hello ")))
    by (vm_compute; reflexivity).
  exact (proj1 (routes_agree fs_deployed fresh _ (lit " hello ") Hd)).
Defined.

Lemma status_codes_witness :
  status (snd (handle fs_deployed
                 (POST_predict (message_json (PStr (lit " ")))) fresh)) = 400%Z.
Proof.
  destruct (status_codes fs_deployed
              (POST_predict (message_json (PStr (lit " ")))) fresh)
    as (_ & H & _).
  apply (H (message_json (PStr (lit " "))) eq_refl).
  vm_compute. reflexivity.
Defined.

Lemma failed_load_is_retried_witness :
  let g1 := _eager_load_background fs_model_only fresh in
  _loaded_model g1 = Some (stub_classifier (PStr (lit "FAKE")))
  /\ _loaded_model (fst (_load_artifacts_once fs_redeployed g1))
     = Some (stub_classifier (PStr (lit "REAL")))
  /\ _vectorizer (fst (_load_artifacts_once fs_redeployed g1))
     = Some stub_vectorizer.
Proof.
  intros g1.
  destruct (failed_load_is_retried fs_model_only fs_redeployed fresh
              (not_found vectorizer_pkl)
              (stub_classifier (PStr (lit "REAL"))) stub_vectorizer
              eq_refl eq_refl eq_refl eq_refl) as [H _].
  destruct (H g1 (or_intror eq_refl)) as (_ & Hm & Hv).
  split; [vm_compute; reflexivity|]. split; [exact Hm | exact Hv].
Defined.

Lemma lock_discipline_witness :
  exists s,
    run fs_model_only failing_schedule (cold_start fresh 2) = Some s
    /\ locked s = false.
Proof.
  eexists. split; [vm_compute; reflexivity|].
  lazymatch goal with
  | |- locked ?s = false =>
      assert (Hrun : run fs_model_only failing_schedule (cold_start fresh 2)
                     = Some s) by (vm_compute; reflexivity);
      destruct (lock_discipline fs_model_only fresh 2 failing_schedule s Hrun)
        as (_ & _ & _ & _ & _ & Hfree)
  end.
  apply Hfree. intros i p Hi.
  destruct i as [|[|i]]; cbn in Hi; [| |done]; by injection Hi as <-.
Defined.

End FurtherRuns.

Section PageProperties.

Context {Features : Type}.
Implicit Types (g : process Features) (fs : filesystem Features).






Lemma label_of_error (code : Z) (msg : pystr) :
  json_field (lit "label") (error_json code msg) = None.
Proof. by vm_compute. Qed.

(** X13. A functional test passes exactly when the posted text is not
    blank and the inference function, given the stripped text, returns the
    expected label; no error answer can make it pass. *)
Theorem functional_test_oracle fs g (text expected : pystr) :
  functional_test fs g text expected = true
  <-> strip text <> []
      /\ snd (_predict_text fs (strip text) g) = Returns expected.
Proof.
  unfold functional_test, predict_json.
  assert (Hj : json_message (JsonObject {[ lit "message" := PStr text ]})
               = Returns (strip text)).
  { unfold json_message. by rewrite lookup_singleton_eq. }
  rewrite Hj.
  destruct (strip text) as [|c s].
  { cbn [snd]. rewrite label_of_error. split; [done|]. by intros [? _]. }
  destruct (_predict_text fs (c :: s) g) as [g1 [label|e]]; cbn [snd].
  - change (json_field (lit "label")
              {| status := 200;
                 payload := JsonBody [(lit "label", JString label)] |})
      with (if decide (lit "label" = lit "label")
            then Some (JString label) else None).
    destruct (decide (lit "label" = lit "label")) as [_|Hne]; [|done].
    rewrite bool_decide_eq_true. split.
    + by intros ->.
    + by intros [_ [= ->]].
  - destruct (is_FileNotFoundError e); cbn [snd]; rewrite label_of_error;
      (split; [done|]); by intros [_ [=]].
Qed.

End PageProperties.

Section PageRuns.

Import Fixtures.

Lemma functional_test_oracle_witness :
  functional_test fs_deployed fresh
    (lit "Aliens have visited the world today") (lit "FAKE") = true.
Proof.
  apply (proj2 (functional_test_oracle fs_deployed fresh
                  (lit "Aliens have visited the world today") (lit "FAKE"))).
  split; [vm_compute; discriminate | vm_compute; reflexivity].
Defined.


End PageRuns.
